(** * Market-order fill allocation of [src/util/orders.ts]

    A shallow embedding of the order utilities of the 0x launch-kit
    front end: [buildMarketOrders] (the greedy fill allocator),
    [sumTakerAssetFillableOrders] (the fill-plan valuator),
    [calculateWorstCaseProtocolFee] and [isDutchAuction], followed by the
    properties the specification states about them; then the builders of
    orders for the relayer ([buildLimitOrder], [buildSellCollectibleOrder],
    [getOrderWithTakerAndFeeConfigFromRelayer]) and further properties of
    all of them.

    Conventions of the embedding.
    - A finite [BigNumber] is an exact rational ([Q]); [plus], [minus],
      [multipliedBy] and the comparisons of bignumber.js are exact on finite
      values, so they are the operations of [Q]. Equality of amounts is
      [Qeq] ([==]).
    - A thrown exception is the [Throw] outcome of the [result] monad.
    - [SignedOrder] objects are handed from the candidates to the returned
      plan by reference, so they live in a [Heap] and are named by a [ref].
      [UIOrder] objects are only read, so the array of candidates is the
      list of their values; the array itself is a mutable cell whose contents
      the allocator returns along with its outcome.
    - What the module imports from files that are not part of this
      development (the token registry, the unit conversions of
      [./tokens], BigNumber's [div] and [toString], the constant
      [PROTOCOL_FEE_MULTIPLIER]) is a [Variable] of the enclosing section.
    - An order sent to or received from the relayer is a JavaScript object,
      a finite map from property names to values; the settled promise of an
      [async] function is a [promise], and what it reads from the clock is
      a [Variable]. *)

From Stdlib Require Import QArith Qround Lqa Ascii String DecimalString.
From stdpp Require Import list strings sorting gmap.

Set Default Proof Using "Type".

(** ** Exceptions *)

(** The exceptions the module can raise: the [Error] thrown by
    [sumTakerAssetFillableOrders] on arrays of different lengths
    ([InvalidArgument] in the specification), the error of the token registry
    for an asset it does not know ([UnknownToken]), and the [TypeError] of
    JavaScript for a method call on [undefined]. *)
Inductive exn : Type :=
| InvalidArgument
| UnknownToken
| TypeError.

Inductive result (A : Type) : Type :=
| Ok (a : A)
| Throw (e : exn).
Arguments Ok {A} a.
Arguments Throw {A} e.

Definition bind {A B : Type} (m : result A) (k : A -> result B) : result B :=
  match m with
  | Ok a => k a
  | Throw e => Throw e
  end.

Notation "'let!' x ':=' m 'in' k" := (bind m (fun x => k))
  (at level 10, x name, m at level 100, k at level 200).

Definition orThrow {A : Type} (e : exn) (o : option A) : result A :=
  match o with
  | Some a => Ok a
  | None => Throw e
  end.

Definition returns {A : Type} (m : result A) : Prop := exists a, m = Ok a.

(** ** BigNumber *)

Module BigNumber.

Definition t : Type := Q.

Definition ZERO : t := 0%Q.

Definition plus (a b : t) : t := (a + b)%Q.
Definition minus (a b : t) : t := (a - b)%Q.
Definition multipliedBy (a b : t) : t := (a * b)%Q.

(** [a.comparedTo(b)] is the number -1, 0 or 1. *)
Definition comparedTo (a b : t) : Z :=
  match (a ?= b)%Q with
  | Lt => (-1)%Z
  | Eq => 0%Z
  | Gt => 1%Z
  end.

Definition isLessThan (a b : t) : bool :=
  match (a ?= b)%Q with Lt => true | _ => false end.

Definition isGreaterThan (a b : t) : bool :=
  match (a ?= b)%Q with Gt => true | _ => false end.

Definition eq (a b : t) : bool := Qeq_bool a b.

(** [a.integerValue(BigNumber.ROUND_CEIL)] *)
Definition integerValue_ROUND_CEIL (a : t) : t := inject_Z (Qceiling a).

(** [new BigNumber(n)] for an integer [n]. *)
Definition ofInteger (n : Z) : t := inject_Z n.

Definition sum (l : list t) : t := foldr plus ZERO l.

End BigNumber.

(** ** Data model *)

(** [export enum OrderSide { Sell, Buy }] *)
Inductive OrderSide : Type := Sell | Buy.

Record SignedOrder : Type := {
  makerAssetData : string;
  takerAssetData : string;
  makerAssetAmount : BigNumber.t;
  takerAssetAmount : BigNumber.t;
  expirationTimeSeconds : BigNumber.t;
  signature : string
}.

(** Identity of a [SignedOrder] object, and the part of the JavaScript heap
    that holds these objects. No function of the module writes to it. *)
Definition ref : Type := positive.
Definition Heap : Type := ref -> SignedOrder.

(** [filled] is [BigNumber | null]; the test [if (order.filled)] is true of
    every BigNumber object, zero included. *)
Record UIOrder : Type := {
  rawOrder : ref;
  size : BigNumber.t;
  filled : option BigNumber.t;
  price : BigNumber.t
}.

Record Token : Type := { decimals : Z }.

Record BuildMarketOrderParams : Type := {
  amount : BigNumber.t;
  orders : list UIOrder
}.

(** ** Array.prototype.sort *)

(** [arr.sort(cmp)] sorts in place and stably (ECMAScript 2019): [a] is put
    before [b] when [cmp(a, b) < 0], after it when [cmp(a, b) > 0], and the
    two keep their order otherwise. The language does not fix the algorithm;
    the result is the one of a stable insertion sort, see
    [stable_sort_unique] below. *)
Section ArraySort.
Context {A : Type} (cmp : A -> A -> Z).

Fixpoint sort_insert (x : A) (l : list A) : list A :=
  match l with
  | [] => [x]
  | y :: l' => if (0 <? cmp x y)%Z then y :: sort_insert x l' else x :: y :: l'
  end.

Fixpoint Array_sort (l : list A) : list A :=
  match l with
  | [] => []
  | x :: l' => sort_insert x (Array_sort l')
  end.
End ArraySort.

(** The comparator of lines 119-125. *)
Definition compareOrders (side : OrderSide) (a b : UIOrder) : Z :=
  match side with
  | Buy => BigNumber.comparedTo (price a) (price b)
  | Sell => BigNumber.comparedTo (price b) (price a)
  end.

(** ** The allocator *)

(** State of the loop of [buildMarketOrders]: the two arrays under
    construction and the running total. [recorded] is a ghost field: the
    history of the values pushed on [amounts] at lines 139 and 142, kept as
    they were before the Buy-side conversion overwrites them. *)
Record LoopState : Type := {
  ordersToFill : list ref;
  amounts : list BigNumber.t;
  filledAmount : BigNumber.t;
  recorded : list BigNumber.t
}.

Definition initialState : LoopState :=
  {| ordersToFill := []; amounts := []; filledAmount := BigNumber.ZERO; recorded := [] |}.

(** Lines 134-137. *)
Definition available (order : UIOrder) : BigNumber.t :=
  match filled order with
  | Some f => BigNumber.minus (size order) f
  | None => size order
  end.

(** Lines 131-144: push the raw order, then the amount taken from it. *)
Definition recordFill (amount : BigNumber.t) (order : UIOrder) (st : LoopState) : LoopState :=
  let ordersToFill' := ordersToFill st ++ [rawOrder order] in
  if BigNumber.isGreaterThan (BigNumber.plus (filledAmount st) (available order)) amount
  then
    let a := BigNumber.minus amount (filledAmount st) in
    {| ordersToFill := ordersToFill';
       amounts := amounts st ++ [a];
       filledAmount := amount;
       recorded := recorded st ++ [a] |}
  else
    {| ordersToFill := ordersToFill';
       amounts := amounts st ++ [available order];
       filledAmount := BigNumber.plus (filledAmount st) (available order);
       recorded := recorded st ++ [available order] |}.

(** The amount line 139 or line 142 pushes for [order]. *)
Definition pushedAmount (amount : BigNumber.t) (order : UIOrder) (st : LoopState) : BigNumber.t :=
  if BigNumber.isGreaterThan (BigNumber.plus (filledAmount st) (available order)) amount
  then BigNumber.minus amount (filledAmount st)
  else available order.

(** Invariant of the loop: the running total is the sum of what was pushed,
    and stays within the target. *)
Definition conserved (amount : BigNumber.t) (st : LoopState) : Prop :=
  (BigNumber.sum (recorded st) == filledAmount st)%Q /\ (filledAmount st <= amount)%Q.

Section Allocator.

(** [getKnownTokens().getTokenByAssetData(assetData)]; [None] when the
    registry throws because it does not know the token. *)
Variable getTokenByAssetData : string -> option Token.
(** [tokenAmountInUnitsToBigNumber(amount, decimals)] of [./tokens]. *)
Variable tokenAmountInUnitsToBigNumber : BigNumber.t -> Z -> BigNumber.t.
(** [unitsInTokenAmount(units, decimals)] of [./tokens]. *)
Variable unitsInTokenAmount : string -> Z -> BigNumber.t.
(** [BigNumber.prototype.toString] *)
Variable toString : BigNumber.t -> string.

Variable h : Heap.

(** The value line 151 stores: the amount in units of the maker token,
    times the price, in base units of the taker token. *)
Definition buyConversion (order : UIOrder) (makerTokenDecimals takerTokenDecimals : Z)
    (a : BigNumber.t) : BigNumber.t :=
  let buyAmount := tokenAmountInUnitsToBigNumber a makerTokenDecimals in
  unitsInTokenAmount (toString (BigNumber.multipliedBy buyAmount (price order)))
    takerTokenDecimals.

(** The registry knows the maker and the taker token of [order]. *)
Definition tokensKnown (order : UIOrder) : Prop :=
  is_Some (getTokenByAssetData (makerAssetData (h (rawOrder order)))) /\
  is_Some (getTokenByAssetData (takerAssetData (h (rawOrder order)))).

(** [a] is the conversion of the recorded amount [r] of [order] with the
    decimals the registry gives for its maker and taker asset data. *)
Definition convertedFrom (order : UIOrder) (r a : BigNumber.t) : Prop :=
  exists makerToken takerToken,
    getTokenByAssetData (makerAssetData (h (rawOrder order))) = Some makerToken /\
    getTokenByAssetData (takerAssetData (h (rawOrder order))) = Some takerToken /\
    a = buyConversion order (decimals makerToken) (decimals takerToken) r.

(** What [amounts] holds for [order] when its iteration ends. *)
Definition storedFor (side : OrderSide) (order : UIOrder) (r a : BigNumber.t) : Prop :=
  match side with
  | Buy => convertedFrom order r a
  | Sell => a = r
  end.

(** Lines 147-151, at loop index [i]. The write [amounts[i] = v] is within
    the array ([convertFill_in_range]), where [<[i:=v]>] is the assignment
    of JavaScript. *)
Definition convertFill (order : UIOrder) (i : nat) (st : LoopState) : result LoopState :=
  let! makerToken := orThrow UnknownToken
      (getTokenByAssetData (makerAssetData (h (rawOrder order)))) in
  let! takerToken := orThrow UnknownToken
      (getTokenByAssetData (takerAssetData (h (rawOrder order)))) in
  let! a := orThrow TypeError (amounts st !! i) in
  Ok {| ordersToFill := ordersToFill st;
        amounts := <[i := buyConversion order (decimals makerToken) (decimals takerToken) a]>
                     (amounts st);
        filledAmount := filledAmount st;
        recorded := recorded st |}.

(** Lines 131-152: one iteration. *)
Definition loopBody (side : OrderSide) (amount : BigNumber.t) (order : UIOrder) (i : nat)
    (st : LoopState) : result LoopState :=
  let st' := recordFill amount order st in
  match side with
  | Buy => convertFill order i st'
  | Sell => Ok st'
  end.

(** Lines 130-153: [rest] is [sortedOrders] from index [i] on. *)
Fixpoint fillLoop (side : OrderSide) (amount : BigNumber.t) (rest : list UIOrder) (i : nat)
    (st : LoopState) : result LoopState :=
  match rest with
  | [] => Ok st
  | order :: rest' =>
      if BigNumber.isLessThan (filledAmount st) amount
      then let! st' := loopBody side amount order i st in
           fillLoop side amount rest' (S i) st'
      else Ok st
  end.

(** The run of the loop on the sorted candidates. *)
Definition allocation (params : BuildMarketOrderParams) (side : OrderSide) : result LoopState :=
  fillLoop side (amount params) (Array_sort (compareOrders side) (orders params)) 0
    initialState.

(** [buildMarketOrders(params, side)]. The first component is the contents
    of the array [params.orders] after the call: [orders.sort] has sorted
    it in place, whether or not the loop throws afterwards. *)
Definition buildMarketOrders (params : BuildMarketOrderParams) (side : OrderSide)
    : list UIOrder * result (list ref * list BigNumber.t * bool) :=
  let sortedOrders := Array_sort (compareOrders side) (orders params) in
  (sortedOrders,
   let! st := fillLoop side (amount params) sortedOrders 0 initialState in
   let canBeFilled := BigNumber.eq (filledAmount st) (amount params) in
   let roundedAmounts := map BigNumber.integerValue_ROUND_CEIL (amounts st) in
   Ok (ordersToFill st, roundedAmounts, canBeFilled)).

End Allocator.

(** ** The valuator *)

Section Valuator.

(** [BigNumber.prototype.div]: the quotient rounded to the configured
    number of decimal places; it never throws. *)
Variable div : BigNumber.t -> BigNumber.t -> BigNumber.t.

Variable h : Heap.

(** The callback of [reduce], lines 173-175. *)
Definition addFill (side : OrderSide) (amounts : list BigNumber.t)
    (sum : BigNumber.t) (order : ref) (index : nat) : result BigNumber.t :=
  let price :=
    match side with
    | Buy => BigNumber.ofInteger 1
    | Sell => div (makerAssetAmount (h order)) (takerAssetAmount (h order))
    end in
  let! a := orThrow TypeError (amounts !! index) in
  Ok (BigNumber.plus sum (BigNumber.multipliedBy a price)).

(** [ordersToFill.reduce(callback, sum)], from index [index] on. *)
Fixpoint reduceFrom (side : OrderSide) (amounts : list BigNumber.t)
    (rest : list ref) (index : nat) (sum : BigNumber.t) : result BigNumber.t :=
  match rest with
  | [] => Ok sum
  | order :: rest' =>
      let! sum' := addFill side amounts sum order index in
      reduceFrom side amounts rest' (S index) sum'
  end.

Definition sumTakerAssetFillableOrders (side : OrderSide) (ordersToFill : list ref)
    (amounts : list BigNumber.t) : result BigNumber.t :=
  if negb (length ordersToFill =? length amounts)%nat then Throw InvalidArgument
  else if (length ordersToFill =? 0)%nat then Ok BigNumber.ZERO
  else reduceFrom side amounts ordersToFill 0 BigNumber.ZERO.

End Valuator.

(** ** The protocol fee *)

(** JavaScript numbers that hold integers. [orders.length *
    PROTOCOL_FEE_MULTIPLIER] is a product of IEEE 754 binary64 numbers: the
    exact product rounded to the nearest number with a 53-bit significand,
    ties to even. (Overflow to [Infinity], beyond 2^1024, is not modelled.) *)
Module Number.

Definition MAX_ARRAY_LENGTH : Z := 2 ^ 32 - 1.

Definition round (x : Z) : Z :=
  let m := Z.abs x in
  if (m <? 2 ^ 53)%Z then x
  else
    let e := (Z.log2 m - 52)%Z in
    let q := (m / 2 ^ e)%Z in
    let r := (m mod 2 ^ e)%Z in
    let half := (2 ^ (e - 1))%Z in
    let q' :=
      if (r <? half)%Z then q
      else if (half <? r)%Z then (q + 1)%Z
      else if Z.even q then q else (q + 1)%Z in
    (Z.sgn x * (q' * 2 ^ e))%Z.

Definition mul (a b : Z) : Z := round (a * b).

End Number.

Section ProtocolFee.

(** The constant of [../common/constants]. *)
Variable PROTOCOL_FEE_MULTIPLIER : Z.

(** [new BigNumber(n)] reads the decimal digits of the number [n]; for an
    integer below 2^53, the range in which the fee is stated below, they are
    the digits of the integer itself. *)
Definition calculateWorstCaseProtocolFee (orders : list ref) (gasPrice : BigNumber.t)
    : BigNumber.t :=
  let protocolFee :=
    BigNumber.multipliedBy
      (BigNumber.ofInteger (Number.mul (Z.of_nat (length orders)) PROTOCOL_FEE_MULTIPLIER))
      gasPrice in
  protocolFee.

End ProtocolFee.

(** ** The auction classifier *)

Definition isDutchAuction (_order : SignedOrder) : bool := false.

(** ** Vocabulary of the specification *)

(** [notWorse side a b]: the price of [a] is at least as good as the price
    of [b] for a taker on [side] (lower when buying, higher when selling);
    [better] is the strict version. *)
Definition notWorse (side : OrderSide) (a b : UIOrder) : Prop :=
  match side with
  | Buy => (price a <= price b)%Q
  | Sell => (price b <= price a)%Q
  end.

Definition better (side : OrderSide) (a b : UIOrder) : Prop :=
  match side with
  | Buy => (price a < price b)%Q
  | Sell => (price b < price a)%Q
  end.

(** The candidates of a list whose price is [p], in the order of the list. *)
Definition pricedAt (p : BigNumber.t) (l : list UIOrder) : list UIOrder :=
  List.filter (fun o => BigNumber.eq (price o) p) l.

(** [l'] is the stable sort of [l] for [side]: the same candidates, best
    price first, candidates of equal price in the order they have in [l]. *)
Definition stablySorted (side : OrderSide) (l l' : list UIOrder) : Prop :=
  l' ≡ₚ l /\ StronglySorted (notWorse side) l' /\ forall p, pricedAt p l' = pricedAt p l.

(** The total when buying: every amount is added with price 1. *)
Definition buyTotal (amounts : list BigNumber.t) (sum : BigNumber.t) : BigNumber.t :=
  foldl (fun s a => BigNumber.plus s (BigNumber.multipliedBy a (BigNumber.ofInteger 1)))
    sum amounts.

(** ** A sample environment *)

(** An instance of the imported functions, on which the definitions above
    run: a registry of three tokens, the unit conversions by powers of ten,
    and a printer of rationals that its reader inverts. *)
Module Sample.

Definition getTokenByAssetData (assetData : string) : option Token :=
  if String.eqb assetData "zrx" then Some {| decimals := 18 |}
  else if String.eqb assetData "weth" then Some {| decimals := 18 |}
  else if String.eqb assetData "usdc" then Some {| decimals := 6 |}
  else None.

Definition decimalsPerToken (d : Z) : BigNumber.t := inject_Z (10 ^ d).

Definition tokenAmountInUnitsToBigNumber (a : BigNumber.t) (d : Z) : BigNumber.t :=
  (a / decimalsPerToken d)%Q.

Definition toString (q : BigNumber.t) : string :=
  String.append (NilZero.string_of_int (Z.to_int (Qnum q)))
    (String "/"%char (NilZero.string_of_uint (Pos.to_uint (Qden q)))).

Fixpoint splitSlash (s : string) : string * option string :=
  match s with
  | EmptyString => (EmptyString, None)
  | String c s' =>
      if Ascii.eqb c "/"%char then (EmptyString, Some s')
      else let '(a, b) := splitSlash s' in (String c a, b)
  end.

Definition ofString (s : string) : BigNumber.t :=
  let '(n, d) := splitSlash s in
  match NilZero.int_of_string n, d ≫= NilZero.uint_of_string with
  | Some n, Some d =>
      match Z.of_uint d with
      | Zpos p => Qmake (Z.of_int n) p
      | _ => BigNumber.ZERO
      end
  | _, _ => BigNumber.ZERO
  end.

Definition unitsInTokenAmount (units : string) (d : Z) : BigNumber.t :=
  BigNumber.multipliedBy (ofString units) (decimalsPerToken d).

Definition div (a b : BigNumber.t) : BigNumber.t := (a / b)%Q.

Definition PROTOCOL_FEE_MULTIPLIER : Z := 150000.

(** A heap of orders that sell ZRX for WETH, except for object 9, which
    offers a token the registry does not know. *)
Definition heap : Heap := fun r =>
  {| makerAssetData := if Pos.eqb r 9 then "doge" else "zrx";
     takerAssetData := "weth";
     makerAssetAmount := inject_Z (Zpos r);
     takerAssetAmount := 2%Q;
     expirationTimeSeconds := 0%Q;
     signature := "0x" |}.

Definition order (r : ref) (p s : Z) (f : option Z) : UIOrder :=
  {| rawOrder := r; size := inject_Z s; filled := inject_Z <$> f; price := inject_Z p |}.
Arguments order r%_positive p%_Z s%_Z f.

Definition allocate (side : OrderSide) (targetAmount : Z) (candidates : list UIOrder) :=
  buildMarketOrders getTokenByAssetData tokenAmountInUnitsToBigNumber unitsInTokenAmount
    toString heap {| amount := inject_Z targetAmount; orders := candidates |} side.

Definition trace (side : OrderSide) (targetAmount : Z) (candidates : list UIOrder) :=
  allocation getTokenByAssetData tokenAmountInUnitsToBigNumber unitsInTokenAmount
    toString heap {| amount := inject_Z targetAmount; orders := candidates |} side.

(** Buying 100 from offers of 40 at price 2 and 80 at price 3, given in the
    other order; buying 50 from offers that have 10 and 20 left. *)
Definition buy100 : BuildMarketOrderParams :=
  {| amount := 100%Q; orders := [order 1 3 80 None; order 2 2 40 None] |}.


Arguments allocate side targetAmount%_Z candidates.
Arguments trace side targetAmount%_Z candidates.

End Sample.

(** ** Further vocabulary *)

(** The unit price the valuator applies to [order] (line 174). *)
Definition unitPrice (div : BigNumber.t -> BigNumber.t -> BigNumber.t) (h : Heap)
    (side : OrderSide) (order : ref) : BigNumber.t :=
  match side with
  | Buy => BigNumber.ofInteger 1
  | Sell => div (makerAssetAmount (h order)) (takerAssetAmount (h order))
  end.

(** The consideration of each fill: the amount times the unit price of its
    order. *)
Definition considerations (div : BigNumber.t -> BigNumber.t -> BigNumber.t) (h : Heap)
    (side : OrderSide) (ordersToFill : list ref) (amounts : list BigNumber.t)
    : list BigNumber.t :=
  zip_with (fun order a => BigNumber.multipliedBy a (unitPrice div h side order))
    ordersToFill amounts.

(** ** Orders for the relayer *)

(** The values of the fields of an order: addresses and asset data are
    strings, amounts and times are BigNumbers, the chain id is a number. *)
Inductive Value : Type :=
| VString (s : string)
| VBigNumber (n : BigNumber.t)
| VNumber (n : Z).

(** A JavaScript object: its own properties, by name. *)
Abbreviation Obj := (gmap string Value).

(** Why the promise of an [async] function is rejected: an asset-data
    encoder or the token registry threw, or the relayer did not answer. *)
Inductive reason : Type :=
| EncodingFailed
| TokenNotFound
| RelayerFailed (message : string).

(** A settled promise. *)
Inductive promise (A : Type) : Type :=
| Fulfilled (a : A)
| Rejected (r : reason).
Arguments Fulfilled {A} a.
Arguments Rejected {A} r.

Definition andThen {A B : Type} (p : promise A) (k : A -> promise B) : promise B :=
  match p with
  | Fulfilled a => k a
  | Rejected r => Rejected r
  end.

Notation "'await!' x ':=' p 'in' k" := (andThen p (fun x => k))
  (at level 10, x name, p at level 100, k at level 200).

Definition orReject {A : Type} (r : reason) (o : option A) : promise A :=
  match o with
  | Some a => Fulfilled a
  | None => Rejected r
  end.

Module BuildSellCollectibleOrderParams.
Record t : Type := {
  collectibleAddress : string;
  collectibleId : BigNumber.t;
  account : string;
  amount : BigNumber.t;
  exchangeAddress : string;
  expirationDate : BigNumber.t;
  wethAddress : string;
  price : BigNumber.t
}.
End BuildSellCollectibleOrderParams.

Module BuildLimitOrderParams.
Record t : Type := {
  account : string;
  amount : BigNumber.t;
  baseTokenAddress : string;
  exchangeAddress : string;
  price : BigNumber.t;
  quoteTokenAddress : string
}.
End BuildLimitOrderParams.

(** [num.integerValue(BigNumber.ROUND_FLOOR)], the [round] of lines 53 and
    80. *)
Definition round (num : BigNumber.t) : BigNumber.t := inject_Z (Qfloor num).

(** The object literal of lines 54-63 and 87-96. *)
Definition OrderConfigRequest (exchange makerData takerData : string)
    (makerAmount takerAmount : BigNumber.t) (maker taker : string)
    (expiration : BigNumber.t) : Obj :=
  list_to_map
    [("exchangeAddress", VString exchange);
     ("makerAssetData", VString makerData);
     ("takerAssetData", VString takerData);
     ("makerAssetAmount", VBigNumber makerAmount);
     ("takerAssetAmount", VBigNumber takerAmount);
     ("makerAddress", VString maker);
     ("takerAddress", VString taker);
     ("expirationTimeSeconds", VBigNumber expiration)].

Section OrderBuilders.

(** [assetDataUtils.encodeERC721AssetData] and [encodeERC20AssetData];
    [None] when the encoder throws. *)
Variable encodeERC721AssetData : string -> BigNumber.t -> option string.
Variable encodeERC20AssetData : string -> option string.
(** [getKnownTokens().getTokenByAddress(address)]; [None] when it throws. *)
Variable getTokenByAddress : string -> option Token.
Variable tokenAmountInUnitsToBigNumber : BigNumber.t -> Z -> BigNumber.t.
Variable unitsInTokenAmount : string -> Z -> BigNumber.t.
Variable toString : BigNumber.t -> string.
(** The constants of [../common/constants]. *)
Variable ZERO_ADDRESS : string.
Variable CHAIN_ID : Z.
(** [getRelayer().getOrderConfigAsync(request)], settled. *)
Variable getOrderConfigAsync : Obj -> promise Obj.
(** What [Date.now()] and [getExpirationTimeOrdersFromConfig()] read from
    the clock during the call. *)
Variable now : Z.
Variable expirationTime : BigNumber.t.

(** Lines 101-110. In [{...a, ...b, chainId, salt}] the properties of [b]
    replace those of [a], and the two named ones replace both. *)
Definition getOrderWithTakerAndFeeConfigFromRelayer (orderConfigRequest : Obj)
    : promise Obj :=
  await! orderResult := getOrderConfigAsync orderConfigRequest in
  Fulfilled
    (<["salt" := VBigNumber (BigNumber.ofInteger now)]>
       (<["chainId" := VNumber CHAIN_ID]> (orderResult ∪ orderConfigRequest))).

(** Lines 40-63: the request of [buildSellCollectibleOrder]. *)
Definition sellCollectibleOrderRequest (params : BuildSellCollectibleOrderParams.t)
    (side : OrderSide) : promise Obj :=
  let account := BuildSellCollectibleOrderParams.account params in
  let collectibleId := BuildSellCollectibleOrderParams.collectibleId params in
  let collectibleAddress := BuildSellCollectibleOrderParams.collectibleAddress params in
  let amount := BuildSellCollectibleOrderParams.amount params in
  let price := BuildSellCollectibleOrderParams.price params in
  let exchangeAddress := BuildSellCollectibleOrderParams.exchangeAddress params in
  let expirationDate := BuildSellCollectibleOrderParams.expirationDate params in
  let wethAddress := BuildSellCollectibleOrderParams.wethAddress params in
  await! collectibleData :=
    orReject EncodingFailed (encodeERC721AssetData collectibleAddress collectibleId) in
  await! wethAssetData := orReject EncodingFailed (encodeERC20AssetData wethAddress) in
  Fulfilled
    (OrderConfigRequest exchangeAddress collectibleData wethAssetData
       (match side with
        | Buy => round (BigNumber.multipliedBy amount price)
        | Sell => amount
        end)
       (match side with
        | Buy => amount
        | Sell => round (BigNumber.multipliedBy amount price)
        end)
       account ZERO_ADDRESS expirationDate).

Definition buildSellCollectibleOrder (params : BuildSellCollectibleOrderParams.t)
    (side : OrderSide) : promise Obj :=
  await! orderConfigRequest := sellCollectibleOrderRequest params side in
  getOrderWithTakerAndFeeConfigFromRelayer orderConfigRequest.

(** Line 81: the quote amount in base units, rounded down. *)
Definition quoteAmount (amount price : BigNumber.t) (baseTokenDecimals quoteTokenDecimals : Z)
    : BigNumber.t :=
  let baseTokenAmountInUnits := tokenAmountInUnitsToBigNumber amount baseTokenDecimals in
  let quoteTokenAmountInUnits := BigNumber.multipliedBy baseTokenAmountInUnits price in
  unitsInTokenAmount (toString quoteTokenAmountInUnits) quoteTokenDecimals.

(** Lines 69-96: the request of [buildLimitOrder]. *)
Definition limitOrderRequest (params : BuildLimitOrderParams.t) (side : OrderSide)
    : promise Obj :=
  let account := BuildLimitOrderParams.account params in
  let baseTokenAddress := BuildLimitOrderParams.baseTokenAddress params in
  let exchangeAddress := BuildLimitOrderParams.exchangeAddress params in
  let amount := BuildLimitOrderParams.amount params in
  let price := BuildLimitOrderParams.price params in
  let quoteTokenAddress := BuildLimitOrderParams.quoteTokenAddress params in
  await! baseTokenAssetData :=
    orReject EncodingFailed (encodeERC20AssetData baseTokenAddress) in
  await! quoteTokenAssetData :=
    orReject EncodingFailed (encodeERC20AssetData quoteTokenAddress) in
  await! baseToken := orReject TokenNotFound (getTokenByAddress baseTokenAddress) in
  await! quoteToken := orReject TokenNotFound (getTokenByAddress quoteTokenAddress) in
  let quoteTokenAmountInBaseUnits :=
    round (quoteAmount amount price (decimals baseToken) (decimals quoteToken)) in
  let isBuy := match side with Buy => true | Sell => false end in
  Fulfilled
    (OrderConfigRequest exchangeAddress
       (if isBuy then quoteTokenAssetData else baseTokenAssetData)
       (if isBuy then baseTokenAssetData else quoteTokenAssetData)
       (if isBuy then quoteTokenAmountInBaseUnits else amount)
       (if isBuy then amount else quoteTokenAmountInBaseUnits)
       account ZERO_ADDRESS expirationTime).

Definition buildLimitOrder (params : BuildLimitOrderParams.t) (side : OrderSide)
    : promise Obj :=
  await! orderConfigRequest := limitOrderRequest params side in
  getOrderWithTakerAndFeeConfigFromRelayer orderConfigRequest.

End OrderBuilders.

(** ** A sample relayer *)

Module SampleOrders.

Definition encodeERC721AssetData (address : string) (id : BigNumber.t) : option string :=
  if String.eqb address "" then None else Some (String.append "erc721:" address).

Definition encodeERC20AssetData (address : string) : option string :=
  if String.eqb address "" then None else Some (String.append "erc20:" address).

Definition getTokenByAddress : string -> option Token := Sample.getTokenByAssetData.

Definition ZERO_ADDRESS : string := "0x0000000000000000000000000000000000000000".

Definition CHAIN_ID : Z := 1.

(** A relayer that names the taker, a fee, and a chain id of its own. *)
Definition answer : Obj :=
  list_to_map
    [("takerAddress", VString "0xfeed"); ("makerFee", VBigNumber 0%Q);
     ("chainId", VNumber 99)].

Definition getOrderConfigAsync (request : Obj) : promise Obj := Fulfilled answer.

Definition now : Z := 1572566400000.

Definition expirationTime : BigNumber.t := inject_Z 1572570000.

(** 5 ZRX at a third of a USDC each; the same for a token nobody knows. *)
Definition limitParams : BuildLimitOrderParams.t :=
  {| BuildLimitOrderParams.account := "0xabc";
     BuildLimitOrderParams.amount := inject_Z (5 * 10 ^ 18);
     BuildLimitOrderParams.baseTokenAddress := "zrx";
     BuildLimitOrderParams.exchangeAddress := "0xexchange";
     BuildLimitOrderParams.price := 1 # 3;
     BuildLimitOrderParams.quoteTokenAddress := "usdc" |}.

Definition unknownParams : BuildLimitOrderParams.t :=
  {| BuildLimitOrderParams.account := "0xabc";
     BuildLimitOrderParams.amount := inject_Z (5 * 10 ^ 18);
     BuildLimitOrderParams.baseTokenAddress := "zrx";
     BuildLimitOrderParams.exchangeAddress := "0xexchange";
     BuildLimitOrderParams.price := 1 # 3;
     BuildLimitOrderParams.quoteTokenAddress := "doge" |}.

Definition limitOrderRequest (side : OrderSide) : promise Obj :=
  limitOrderRequest encodeERC20AssetData getTokenByAddress
    Sample.tokenAmountInUnitsToBigNumber Sample.unitsInTokenAmount Sample.toString
    ZERO_ADDRESS expirationTime limitParams side.

(** The request to buy of [limitParams]. *)
Definition buyRequest : Obj :=
  OrderConfigRequest "0xexchange" "erc20:usdc" "erc20:zrx"
    (round (quoteAmount Sample.tokenAmountInUnitsToBigNumber Sample.unitsInTokenAmount
              Sample.toString (inject_Z (5 * 10 ^ 18)) (1 # 3) 18 6))
    (inject_Z (5 * 10 ^ 18)) "0xabc" ZERO_ADDRESS expirationTime.

(** Selling two and a half from bids of 1 at price 3 and 4 at price 2. *)
Definition sellHalf : BuildMarketOrderParams :=
  {| amount := 5 # 2; orders := [Sample.order 2 2 4 None; Sample.order 1 3 1 None] |}.

End SampleOrders.

(** * Properties *)

(** ** The comparisons of BigNumber *)

Lemma isLessThan_spec (a b : Q) : BigNumber.isLessThan a b = true <-> (a < b)%Q.
Proof.
  unfold BigNumber.isLessThan. rewrite Qlt_alt.
  destruct (a ?= b)%Q; split; congruence.
Qed.

Lemma isLessThan_false (a b : Q) : BigNumber.isLessThan a b = false <-> (b <= a)%Q.
Proof.
  rewrite <- not_true_iff_false, isLessThan_spec. split.
  - apply Qnot_lt_le.
  - apply Qle_not_lt.
Qed.

Lemma isGreaterThan_spec (a b : Q) : BigNumber.isGreaterThan a b = true <-> (b < a)%Q.
Proof.
  unfold BigNumber.isGreaterThan. rewrite Qgt_alt.
  destruct (a ?= b)%Q; split; congruence.
Qed.

Lemma isGreaterThan_false (a b : Q) : BigNumber.isGreaterThan a b = false <-> (a <= b)%Q.
Proof.
  rewrite <- not_true_iff_false, isGreaterThan_spec. split.
  - apply Qnot_lt_le.
  - apply Qle_not_lt.
Qed.

Lemma eq_spec (a b : Q) : BigNumber.eq a b = true <-> (a == b)%Q.
Proof. apply Qeq_bool_iff. Qed.

Lemma comparedTo_pos (a b : Q) : (0 <? BigNumber.comparedTo a b)%Z = true <-> (b < a)%Q.
Proof.
  unfold BigNumber.comparedTo. rewrite Qgt_alt.
  destruct (a ?= b)%Q; cbv; split; congruence.
Qed.

(** ** The sort *)

Lemma compareOrders_pos side x y :
  (0 <? compareOrders side x y)%Z = true <-> better side y x.
Proof. destruct side; simpl; apply comparedTo_pos. Qed.

Lemma compareOrders_nonpos side x y :
  (0 <? compareOrders side x y)%Z = false <-> notWorse side x y.
Proof.
  rewrite <- not_true_iff_false, compareOrders_pos.
  destruct side; simpl; split; auto using Qnot_lt_le, Qle_not_lt.
Qed.

Lemma better_notWorse side x y : better side x y -> notWorse side x y.
Proof. destruct side; simpl; apply Qlt_le_weak. Qed.

Lemma notWorse_trans side x y z : notWorse side x y -> notWorse side y z -> notWorse side x z.
Proof. destruct side; simpl; intros; eapply Qle_trans; eauto. Qed.

Lemma better_not_notWorse side x y : better side x y -> ~ notWorse side y x.
Proof. destruct side; simpl; apply Qlt_not_le. Qed.

Lemma better_prices_differ side x y : better side x y -> ~ (price x == price y)%Q.
Proof. destruct side; simpl; intros H E; rewrite E in H; revert H; apply Qlt_irrefl. Qed.

Lemma notWorse_antisym side x y : notWorse side x y -> notWorse side y x -> (price x == price y)%Q.
Proof. destruct side; simpl; intros; apply Qle_antisym; assumption. Qed.

Section SortFacts.
Context {A : Type} (cmp : A -> A -> Z).

Lemma sort_insert_Permutation x l : sort_insert cmp x l ≡ₚ x :: l.
Proof.
  induction l as [|y l IH]; simpl; [done|].
  destruct (0 <? cmp x y)%Z; [|done].
  rewrite IH. apply Permutation_swap.
Qed.

Lemma Array_sort_Permutation l : Array_sort cmp l ≡ₚ l.
Proof.
  induction l as [|x l IH]; simpl; [done|].
  by rewrite sort_insert_Permutation, IH.
Qed.

Lemma Array_sort_length l : length (Array_sort cmp l) = length l.
Proof. apply Permutation_length, Array_sort_Permutation. Qed.

End SortFacts.

Lemma sort_insert_sorted side x l :
  StronglySorted (notWorse side) l ->
  StronglySorted (notWorse side) (sort_insert (compareOrders side) x l).
Proof.
  induction 1 as [|y l Hl IH Hy]; simpl.
  - repeat constructor.
  - destruct (0 <? compareOrders side x y)%Z eqn:E.
    + constructor; [exact IH|].
      rewrite sort_insert_Permutation. constructor; [|exact Hy].
      apply better_notWorse, compareOrders_pos, E.
    + apply compareOrders_nonpos in E.
      constructor; [by constructor|].
      constructor; [exact E|].
      eapply Forall_impl; [exact Hy|]. intros z Hz. eapply notWorse_trans; eauto.
Qed.

Lemma Array_sort_sorted side l :
  StronglySorted (notWorse side) (Array_sort (compareOrders side) l).
Proof.
  induction l as [|x l IH]; simpl; [constructor|].
  by apply sort_insert_sorted.
Qed.

Lemma pricedAt_sort_insert side p x l :
  pricedAt p (sort_insert (compareOrders side) x l) = pricedAt p (x :: l).
Proof.
  induction l as [|y l IH]; simpl; [done|].
  destruct (0 <? compareOrders side x y)%Z eqn:E; [|done].
  simpl. rewrite IH. simpl.
  destruct (BigNumber.eq (price x) p) eqn:Ex, (BigNumber.eq (price y) p) eqn:Ey; try done.
  apply compareOrders_pos, better_prices_differ in E. destruct E.
  apply eq_spec in Ex, Ey. by rewrite Ex, Ey.
Qed.

Lemma pricedAt_Array_sort side p l :
  pricedAt p (Array_sort (compareOrders side) l) = pricedAt p l.
Proof.
  induction l as [|x l IH]; simpl; [done|].
  rewrite pricedAt_sort_insert. simpl. by rewrite IH.
Qed.

Lemma Array_sort_stablySorted side l :
  stablySorted side l (Array_sort (compareOrders side) l).
Proof.
  split; [apply Array_sort_Permutation|].
  split; [apply Array_sort_sorted|].
  intros p. apply pricedAt_Array_sort.
Qed.

Lemma pricedAt_head x l : exists l', pricedAt (price x) (x :: l) = x :: l'.
Proof.
  unfold pricedAt. simpl.
  assert (E : BigNumber.eq (price x) (price x) = true) by (apply eq_spec; reflexivity).
  rewrite E. eauto.
Qed.

Lemma pricedAt_In p x l : In x (pricedAt p l) -> In x l.
Proof. unfold pricedAt. rewrite filter_In. tauto. Qed.

Lemma sorted_pricedAt_eq side l1 l2 :
  StronglySorted (notWorse side) l1 ->
  StronglySorted (notWorse side) l2 ->
  (forall p, pricedAt p l1 = pricedAt p l2) ->
  l1 = l2.
Proof.
  intros H1. revert l2.
  induction H1 as [|x l1 Hl1 IH Hx]; intros l2 H2 Hp.
  - destruct l2 as [|y l2]; [done|].
    destruct (pricedAt_head y l2) as [l' E]. specialize (Hp (price y)).
    rewrite E in Hp. discriminate.
  - destruct H2 as [|y l2 Hl2 Hy].
    { destruct (pricedAt_head x l1) as [l' E]. specialize (Hp (price x)).
      rewrite E in Hp. discriminate. }
    assert (x = y) as <-.
    { destruct (pricedAt_head x l1) as [lx Ex], (pricedAt_head y l2) as [ly Ey].
      pose proof (Hp (price x)) as Px. pose proof (Hp (price y)) as Py.
      rewrite Ex in Px. rewrite Ey in Py.
      unfold pricedAt in Px, Py. simpl in Px, Py.
      destruct (BigNumber.eq (price y) (price x)) eqn:Eyx; [congruence|].
      destruct (BigNumber.eq (price x) (price y)) eqn:Exy.
      { apply eq_spec in Exy. symmetry in Exy. apply eq_spec in Exy. congruence. }
      assert (In x l2) as Hin2.
      { apply (pricedAt_In (price x)). unfold pricedAt. rewrite <- Px. by left. }
      assert (In y l1) as Hin1.
      { apply (pricedAt_In (price y)). unfold pricedAt. rewrite Py. by left. }
      rewrite Forall_forall in Hx, Hy.
      apply list_elem_of_In in Hin1, Hin2.
      pose proof (notWorse_antisym side x y (Hx _ Hin1) (Hy _ Hin2)) as E.
      apply eq_spec in E. congruence. }
    f_equal. apply IH; [exact Hl2|].
    intros p. specialize (Hp p). unfold pricedAt in *. simpl in Hp.
    destruct (BigNumber.eq (price x) p); congruence.
Qed.

(** The stable sort of a list is unique, so every stable sorting algorithm
    computes [Array_sort]. *)
Lemma stable_sort_unique side l l' :
  stablySorted side l l' -> l' = Array_sort (compareOrders side) l.
Proof.
  intros (_ & Hs & Hp).
  apply (sorted_pricedAt_eq side); [exact Hs|apply Array_sort_sorted|].
  intros p. by rewrite Hp, pricedAt_Array_sort.
Qed.

(** ** The loop of the allocator *)

Lemma sum_app (l1 l2 : list BigNumber.t) :
  (BigNumber.sum (l1 ++ l2) == BigNumber.sum l1 + BigNumber.sum l2)%Q.
Proof.
  induction l1 as [|a l1 IH]; simpl.
  - unfold BigNumber.ZERO. lra.
  - unfold BigNumber.plus in *. rewrite IH. lra.
Qed.

Lemma sum_snoc (l : list BigNumber.t) (a : BigNumber.t) :
  (BigNumber.sum (l ++ [a]) == BigNumber.sum l + a)%Q.
Proof. rewrite sum_app. simpl. unfold BigNumber.plus, BigNumber.ZERO. lra. Qed.

Lemma recordFill_ordersToFill amount order st :
  ordersToFill (recordFill amount order st) = ordersToFill st ++ [rawOrder order].
Proof. unfold recordFill. by destruct (BigNumber.isGreaterThan _ _). Qed.

Lemma recordFill_amounts amount order st :
  amounts (recordFill amount order st) = amounts st ++ [pushedAmount amount order st].
Proof. unfold recordFill, pushedAmount. by destruct (BigNumber.isGreaterThan _ _). Qed.

Lemma recordFill_recorded amount order st :
  recorded (recordFill amount order st) = recorded st ++ [pushedAmount amount order st].
Proof. unfold recordFill, pushedAmount. by destruct (BigNumber.isGreaterThan _ _). Qed.

Lemma recordFill_conserved amount order st :
  conserved amount st -> conserved amount (recordFill amount order st).
Proof.
  intros [Hs Hle]. unfold conserved.
  rewrite recordFill_recorded, sum_snoc, Hs.
  unfold recordFill, pushedAmount.
  destruct (BigNumber.isGreaterThan _ _) eqn:E; simpl.
  - unfold BigNumber.minus. split; lra.
  - apply isGreaterThan_false in E. unfold BigNumber.plus in *. split; lra.
Qed.

Section AllocatorFacts.
Context (getTokenByAssetData : string -> option Token)
  (tokenAmountInUnitsToBigNumber : BigNumber.t -> Z -> BigNumber.t)
  (unitsInTokenAmount : string -> Z -> BigNumber.t)
  (toString : BigNumber.t -> string)
  (h : Heap).

Local Abbreviation buyConversion :=
  (buyConversion tokenAmountInUnitsToBigNumber unitsInTokenAmount toString).
Local Abbreviation tokensKnown := (tokensKnown getTokenByAssetData h).
Local Abbreviation convertedFrom :=
  (convertedFrom getTokenByAssetData tokenAmountInUnitsToBigNumber unitsInTokenAmount toString h).
Local Abbreviation storedFor :=
  (storedFor getTokenByAssetData tokenAmountInUnitsToBigNumber unitsInTokenAmount toString h).
Local Abbreviation convertFill :=
  (convertFill getTokenByAssetData tokenAmountInUnitsToBigNumber unitsInTokenAmount toString h).
Local Abbreviation loopBody :=
  (loopBody getTokenByAssetData tokenAmountInUnitsToBigNumber unitsInTokenAmount toString h).
Local Abbreviation fillLoop :=
  (fillLoop getTokenByAssetData tokenAmountInUnitsToBigNumber unitsInTokenAmount toString h).
Local Abbreviation allocation :=
  (allocation getTokenByAssetData tokenAmountInUnitsToBigNumber unitsInTokenAmount toString h).
Local Abbreviation buildMarketOrders :=
  (buildMarketOrders getTokenByAssetData tokenAmountInUnitsToBigNumber unitsInTokenAmount
     toString h).

(** The index written at line 151 is the one just pushed. *)
Lemma convertFill_in_range amount order st :
  (length (amounts st) < length (amounts (recordFill amount order st)))%nat.
Proof. rewrite recordFill_amounts, length_app. simpl. lia. Qed.

Lemma convertFill_Ok order i st st' :
  convertFill order i st = Ok st' ->
  ordersToFill st' = ordersToFill st /\
  filledAmount st' = filledAmount st /\
  recorded st' = recorded st /\
  exists a, amounts st !! i = Some a /\
    exists c, convertedFrom order a c /\ amounts st' = <[i := c]> (amounts st).
Proof.
  unfold convertFill, convertedFrom.
  destruct (getTokenByAssetData (makerAssetData _)) as [mt|]; simpl; [|done].
  destruct (getTokenByAssetData (takerAssetData _)) as [tt|]; simpl; [|done].
  destruct (amounts st !! i) as [a|]; simpl; [|done].
  intros [= <-]; simpl. repeat split. eauto 10.
Qed.

Lemma loopBody_frame side amount order i st st' :
  loopBody side amount order i st = Ok st' ->
  ordersToFill st' = ordersToFill st ++ [rawOrder order] /\
  recorded st' = recorded st ++ [pushedAmount amount order st] /\
  filledAmount st' = filledAmount (recordFill amount order st).
Proof.
  unfold loopBody. destruct side.
  - intros [= <-]. by rewrite recordFill_ordersToFill, recordFill_recorded.
  - intros (-> & -> & -> & _)%convertFill_Ok.
    by rewrite recordFill_ordersToFill, recordFill_recorded.
Qed.

Lemma loopBody_amounts side amount order st st' :
  loopBody side amount order (length (amounts st)) st = Ok st' ->
  exists a, storedFor side order (pushedAmount amount order st) a /\
    amounts st' = amounts st ++ [a].
Proof.
  unfold loopBody. destruct side.
  - intros [= <-]. exists (pushedAmount amount order st).
    split; [done|apply recordFill_amounts].
  - intros (_ & _ & _ & a & Ha & c & Hc & ->)%convertFill_Ok.
    rewrite recordFill_amounts in Ha |- *.
    rewrite list_lookup_middle in Ha by done. injection Ha as <-.
    exists c. split; [exact Hc|].
    rewrite insert_app_r_alt by done. by rewrite Nat.sub_diag.
Qed.

Lemma loopBody_conserved side amount order i st st' :
  conserved amount st -> loopBody side amount order i st = Ok st' -> conserved amount st'.
Proof.
  intros Hc (_ & Hr & Hf)%loopBody_frame.
  pose proof (recordFill_conserved amount order st Hc) as [Hs Hle].
  unfold conserved. rewrite Hr, Hf. rewrite recordFill_recorded in Hs. done.
Qed.

Lemma loopBody_returns side amount order st :
  (side = Buy -> tokensKnown order) ->
  returns (loopBody side amount order (length (amounts st)) st).
Proof.
  intros Hk. unfold loopBody, returns. destruct side; [eauto|].
  destruct (Hk eq_refl) as [[mt Hm] [tt Ht]].
  unfold convertFill. rewrite Hm, Ht, recordFill_amounts. simpl.
  rewrite list_lookup_middle by done. simpl. eauto.
Qed.

(** The loop visits a prefix of [rest]: it pushes the raw orders of the
    first [k] candidates, and one recorded and one stored amount for each. *)
Lemma fillLoop_visits side amount rest : forall st st',
  fillLoop side amount rest (length (amounts st)) st = Ok st' ->
  exists k rs cs,
    (k <= length rest)%nat /\
    ordersToFill st' = ordersToFill st ++ map rawOrder (take k rest) /\
    recorded st' = recorded st ++ rs /\
    amounts st' = amounts st ++ cs /\
    Forall3 (storedFor side) (take k rest) rs cs.
Proof.
  induction rest as [|order rest IH]; intros st st'; simpl.
  - intros [= <-]. exists 0%nat, [], []. rewrite !app_nil_r.
    repeat split; [lia|constructor].
  - destruct (BigNumber.isLessThan _ _).
    + destruct (loopBody side amount order _ st) as [st1|] eqn:E1; simpl; [|done].
      pose proof E1 as (Ho & Hr & _)%loopBody_frame.
      pose proof E1 as (a & Ha & Hc)%loopBody_amounts.
      replace (S (length (amounts st))) with (length (amounts st1))
        by (rewrite Hc, length_app; simpl; lia).
      intros (k & rs & cs & Hk & Ho' & Hr' & Hc' & HF)%IH.
      exists (S k), (pushedAmount amount order st :: rs), (a :: cs). simpl.
      rewrite Ho', Ho, Hr', Hr, Hc', Hc, <- !app_assoc. simpl.
      repeat split; [lia|by constructor].
    + intros [= <-]. exists 0%nat, [], []. rewrite !app_nil_r.
      repeat split; [lia|constructor].
Qed.

Lemma fillLoop_conserved side amount rest : forall i st st',
  conserved amount st ->
  fillLoop side amount rest i st = Ok st' ->
  conserved amount st'.
Proof.
  induction rest as [|order rest IH]; intros i st st' Hc; simpl.
  - by intros [= <-].
  - destruct (BigNumber.isLessThan _ _); [|by intros [= <-]].
    destruct (loopBody side amount order i st) as [st1|] eqn:E1; simpl; [|done].
    apply IH. eapply loopBody_conserved; eauto.
Qed.

(** The loop throws only for a token the registry does not know. *)
Lemma fillLoop_returns side amount rest : forall st,
  (side = Buy -> Forall tokensKnown rest) ->
  returns (fillLoop side amount rest (length (amounts st)) st).
Proof.
  induction rest as [|order rest IH]; intros st Hk; simpl.
  - by eexists.
  - destruct (BigNumber.isLessThan _ _); [|by eexists].
    destruct (loopBody_returns side amount order st) as [st1 E1].
    { intros Hs. by eapply Forall_inv, Hk. }
    rewrite E1. simpl.
    pose proof E1 as (a & _ & Hc)%loopBody_amounts.
    replace (S (length (amounts st))) with (length (amounts st1))
      by (rewrite Hc, length_app; simpl; lia).
    apply IH. intros Hs. by eapply Forall_inv_tail, Hk.
Qed.


(** ** The allocator as a whole *)

Lemma buildMarketOrders_Ok params side sorted os roundedAmounts canBeFilled :
  buildMarketOrders params side = (sorted, Ok (os, roundedAmounts, canBeFilled)) ->
  sorted = Array_sort (compareOrders side) (orders params) /\
  exists st,
    allocation params side = Ok st /\
    os = ordersToFill st /\
    roundedAmounts = map BigNumber.integerValue_ROUND_CEIL (amounts st) /\
    canBeFilled = BigNumber.eq (filledAmount st) (amount params).
Proof.
  unfold buildMarketOrders, allocation. intros [= <- H]. split; [done|].
  destruct (fillLoop _ _ _ _ _) as [st|]; simpl in H; [|done].
  injection H as <- <- <-. by exists st.
Qed.

Lemma allocation_visits params side st :
  allocation params side = Ok st ->
  exists k,
    ordersToFill st = map rawOrder (take k (Array_sort (compareOrders side) (orders params))) /\
    Forall3 (storedFor side)
      (take k (Array_sort (compareOrders side) (orders params))) (recorded st) (amounts st).
Proof.
  unfold allocation.
  intros (k & rs & cs & _ & Ho & -> & -> & HF)%(fillLoop_visits _ _ _ initialState).
  exists k. by rewrite Ho.
Qed.

(** The allocator returns unless, when buying, a candidate names a token the
    registry does not know. *)
Lemma buildMarketOrders_returns params side :
  (side = Buy -> Forall tokensKnown (orders params)) ->
  returns (snd (buildMarketOrders params side)).
Proof.
  intros Hk. unfold buildMarketOrders. simpl.
  destruct (fillLoop_returns side (amount params)
              (Array_sort (compareOrders side) (orders params)) initialState) as [st E].
  { intros Hs. rewrite Array_sort_Permutation. auto. }
  simpl in E. rewrite E. simpl. by eexists.
Qed.

Lemma initialState_conserved amount : (0 <= amount)%Q -> conserved amount initialState.
Proof. intros H. split; simpl; [reflexivity|exact H]. Qed.


Lemma sorted_prefix_not_worse side (l : list UIOrder) k s t :
  StronglySorted (notWorse side) l -> s ∈ take k l -> t ∈ drop k l -> notWorse side s t.
Proof.
  intros Hl Hs Ht. rewrite <- (take_drop k l) in Hl.
  eapply StronglySorted_app_1_elem_of; eauto.
Qed.

(** C2. Best price first. The orders the allocator returns are the raw
    orders of a prefix of the candidates sorted by price, ascending when
    buying and descending when selling, candidates of equal price staying in
    the order of the input; and no candidate left out has a strictly better
    price than one that was taken. *)
Theorem allocator_best_price_first params side sorted os roundedAmounts canBeFilled :
  buildMarketOrders params side = (sorted, Ok (os, roundedAmounts, canBeFilled)) ->
  stablySorted side (orders params) sorted /\
  exists k,
    os = map rawOrder (take k sorted) /\
    forall s t, s ∈ take k sorted -> t ∈ drop k sorted -> ~ better side t s.
Proof.
  intros (-> & st & E & -> & _)%buildMarketOrders_Ok.
  split; [apply Array_sort_stablySorted|].
  destruct (allocation_visits _ _ _ E) as (k & Ho & _).
  exists k. split; [exact Ho|].
  intros s t Hs Ht Hb. apply (better_not_notWorse _ _ _ Hb).
  eapply sorted_prefix_not_worse; eauto using Array_sort_sorted.
Qed.

Lemma Forall3_same_mr {A B} (l : list A) (k k' : list B) :
  Forall3 (fun _ r a => a = r) l k k' -> k' = k.
Proof. induction 1; congruence. Qed.

(** C3. The Buy-side conversion. In one iteration for a candidate, the
    amount just pushed is overwritten by its conversion before the next
    candidate is looked at, the entries before it staying as they are; so
    when buying, each amount of the plan is, before its rounding,
    [unitsInTokenAmount] of ([tokenAmountInUnitsToBigNumber] of the recorded
    amount with the decimals of the maker token, times the price) with the
    decimals of the taker token, the maker token looked up from the maker
    asset data of the raw order and the taker token from its taker asset
    data; when selling, the amounts are the recorded ones. *)
Theorem buy_side_conversion side :
  let converted (order : UIOrder) (fillAmount a : BigNumber.t) : Prop :=
    exists makerToken takerToken,
      getTokenByAssetData (makerAssetData (h (rawOrder order))) = Some makerToken /\
      getTokenByAssetData (takerAssetData (h (rawOrder order))) = Some takerToken /\
      a = unitsInTokenAmount
            (toString
               (tokenAmountInUnitsToBigNumber fillAmount (decimals makerToken)
                * price order)%Q)
            (decimals takerToken) in
  (forall amount order st st',
     loopBody side amount order (length (amounts st)) st = Ok st' ->
     exists a,
       amounts st' = amounts st ++ [a] /\
       match side with
       | Buy => converted order (pushedAmount amount order st) a
       | Sell => a = pushedAmount amount order st
       end) /\
  (forall params sorted os roundedAmounts canBeFilled,
     buildMarketOrders params side = (sorted, Ok (os, roundedAmounts, canBeFilled)) ->
     exists st k,
       allocation params side = Ok st /\
       os = map rawOrder (take k sorted) /\
       roundedAmounts = map BigNumber.integerValue_ROUND_CEIL (amounts st) /\
       match side with
       | Buy => Forall3 converted (take k sorted) (recorded st) (amounts st)
       | Sell => amounts st = recorded st
       end).
Proof.
  intros converted.
  assert (forall order r a, convertedFrom order r a -> converted order r a) as Hconv.
  { intros order r a (makerToken & takerToken & Hm & Ht & ->).
    exists makerToken, takerToken. split; [exact Hm|]. split; [exact Ht|]. reflexivity. }
  split.
  - intros amount order st st' (a & Ha & ->)%loopBody_amounts.
    exists a. split; [done|]. destruct side; [exact Ha|]. by apply Hconv.
  - intros params sorted os roundedAmounts canBeFilled
      (-> & st & E & -> & -> & _)%buildMarketOrders_Ok.
    destruct (allocation_visits _ _ _ E) as (k & Ho & HF).
    exists st, k. repeat split; [exact E|exact Ho|].
    destruct side; [by apply Forall3_same_mr in HF|].
    eapply Forall3_impl; [exact HF|]. exact Hconv.
Qed.



(** C5, as amended. The allocator sorts the caller's array of candidates in
    place: after the call the array holds the same candidates, with every
    field as it was, stably sorted by price for the side; and the orders of
    the returned plan are the raw-order objects of the candidates themselves,
    shared by reference. *)
Theorem allocator_sorts_in_place params side :
  stablySorted side (orders params) (fst (buildMarketOrders params side)) /\
  forall os roundedAmounts canBeFilled,
    snd (buildMarketOrders params side) = Ok (os, roundedAmounts, canBeFilled) ->
    forall r, r ∈ os -> exists o, o ∈ orders params /\ rawOrder o = r.
Proof.
  split; [apply Array_sort_stablySorted|].
  intros os roundedAmounts canBeFilled H r Hr.
  destruct (buildMarketOrders_Ok params side
              (Array_sort (compareOrders side) (orders params)) os roundedAmounts canBeFilled)
    as (_ & st & E & -> & _).
  { rewrite <- H. reflexivity. }
  destruct (allocation_visits _ _ _ E) as (k & Ho & _).
  rewrite Ho in Hr. apply list_elem_of_fmap in Hr as (o & -> & Hin).
  exists o. split; [|done].
  rewrite <- (Array_sort_Permutation (compareOrders side)).
  rewrite <- (take_drop k (Array_sort _ _)). apply elem_of_app. by left.
Qed.

(** C8. Edge cases. With no candidate the plan is empty and [canBeFilled]
    tells whether the target amount is zero; with a target amount of zero the
    plan is empty and [canBeFilled] is true, whatever the candidates. *)
Theorem allocator_edge_cases side :
  (forall amount, exists canBeFilled,
     buildMarketOrders {| amount := amount; orders := [] |} side
       = ([], Ok ([], [], canBeFilled)) /\
     (canBeFilled = true <-> (amount == 0)%Q)) /\
  (forall params, (amount params == 0)%Q ->
     snd (buildMarketOrders params side) = Ok ([], [], true)).
Proof.
  split.
  - intros amount. exists (BigNumber.eq BigNumber.ZERO amount).
    split; [reflexivity|]. rewrite eq_spec. unfold BigNumber.ZERO.
    split; intros H; by rewrite H.
  - intros params H0. unfold buildMarketOrders. simpl.
    assert (fillLoop side (amount params)
              (Array_sort (compareOrders side) (orders params)) 0 initialState
            = Ok initialState) as ->.
    { destruct (Array_sort _ _); simpl; [done|].
      assert (BigNumber.isLessThan BigNumber.ZERO (amount params) = false) as ->; [|done].
      apply isLessThan_false. rewrite H0. unfold BigNumber.ZERO. lra. }
    simpl. assert (BigNumber.eq BigNumber.ZERO (amount params) = true) as ->; [|done].
    apply eq_spec. by rewrite H0.
Qed.

End AllocatorFacts.

(** ** The valuator *)

Section ValuatorFacts.
Context (div : BigNumber.t -> BigNumber.t -> BigNumber.t) (h : Heap).

(** With as many amounts as orders, [reduce] finds an amount at every
    index. *)
Lemma reduceFrom_returns side amounts rest : forall index sum,
  (index + length rest <= length amounts)%nat ->
  returns (reduceFrom div h side amounts rest index sum).
Proof.
  induction rest as [|order rest IH]; intros index sum Hlen; simpl in *.
  - by eexists.
  - unfold addFill.
    destruct (lookup_lt_is_Some_2 amounts index) as [a ->]; [lia|]. simpl.
    apply IH. lia.
Qed.

(** C7. The valuator throws, and then [InvalidArgument], exactly when the
    two arrays differ in length: with arrays of equal length it returns a
    total. For two empty arrays the total is zero, on either side. *)
Theorem valuator_length_check side ordersToFill amounts :
  (length ordersToFill <> length amounts ->
     sumTakerAssetFillableOrders div h side ordersToFill amounts = Throw InvalidArgument) /\
  (length ordersToFill = length amounts ->
     returns (sumTakerAssetFillableOrders div h side ordersToFill amounts)) /\
  sumTakerAssetFillableOrders div h side [] [] = Ok BigNumber.ZERO.
Proof.
  unfold sumTakerAssetFillableOrders. repeat split.
  - intros Hne. apply Nat.eqb_neq in Hne. by rewrite Hne.
  - intros Heq. rewrite Heq, Nat.eqb_refl. simpl.
    destruct (length amounts =? 0)%nat; [by eexists|].
    apply reduceFrom_returns. lia.
Qed.

Lemma reduceFrom_Buy amounts rest : forall index sum,
  (index + length rest = length amounts)%nat ->
  reduceFrom div h Buy amounts rest index sum = Ok (buyTotal (drop index amounts) sum).
Proof.
  induction rest as [|order rest IH]; intros index sum Hlen; simpl in *.
  - rewrite drop_ge by lia. done.
  - unfold addFill.
    destruct (lookup_lt_is_Some_2 amounts index) as [a Ha]; [lia|].
    rewrite Ha. simpl. rewrite IH by lia.
    by rewrite (drop_S _ _ _ Ha).
Qed.

Lemma buyTotal_sum amounts : forall sum,
  (buyTotal amounts sum == sum + BigNumber.sum amounts)%Q.
Proof.
  induction amounts as [|a amounts IH]; intros sum; simpl.
  - unfold BigNumber.ZERO. lra.
  - rewrite IH. unfold BigNumber.plus, BigNumber.multipliedBy, BigNumber.ofInteger.
    change (inject_Z 1) with 1%Q. lra.
Qed.

Lemma sumTakerAssetFillableOrders_Buy ordersToFill amounts :
  length ordersToFill = length amounts ->
  sumTakerAssetFillableOrders div h Buy ordersToFill amounts
    = Ok (buyTotal amounts BigNumber.ZERO).
Proof.
  intros Heq. unfold sumTakerAssetFillableOrders.
  rewrite Heq, Nat.eqb_refl. simpl.
  destruct (length amounts =? 0)%nat eqn:E0.
  - apply Nat.eqb_eq in E0. by destruct amounts.
  - rewrite reduceFrom_Buy by lia. done.
Qed.

End ValuatorFacts.

(** C9. When buying, the total is the plain sum of the amounts, and it is
    the same for any other orders in the same number, whatever their fields
    and whatever [div] does, on a zero taker amount included: the division is
    not evaluated on this side. *)
Theorem valuator_buy_is_plain_sum div h ordersToFill amounts :
  length ordersToFill = length amounts ->
  exists total,
    sumTakerAssetFillableOrders div h Buy ordersToFill amounts = Ok total /\
    (total == BigNumber.sum amounts)%Q /\
    forall div' h' ordersToFill',
      length ordersToFill' = length ordersToFill ->
      sumTakerAssetFillableOrders div' h' Buy ordersToFill' amounts = Ok total.
Proof.
  intros Heq. exists (buyTotal amounts BigNumber.ZERO).
  split; [by apply sumTakerAssetFillableOrders_Buy|].
  split.
  - rewrite buyTotal_sum. unfold BigNumber.ZERO. lra.
  - intros div' h' ordersToFill' Heq'. apply sumTakerAssetFillableOrders_Buy. congruence.
Qed.

(** ** The protocol fee *)

Lemma round_safe x : (Z.abs x < 2 ^ 53)%Z -> Number.round x = x.
Proof. intros H. unfold Number.round. apply Z.ltb_lt in H. by rewrite H. Qed.

(** No rounding happens as long as the product of the number of orders and
    the multiplier is below 2^53. *)
Lemma protocol_fee_safe M orders gasPrice :
  (Z.abs (Z.of_nat (length orders) * M) < 2 ^ 53)%Z ->
  calculateWorstCaseProtocolFee M orders gasPrice
    = (inject_Z (Z.of_nat (length orders) * M) * gasPrice)%Q.
Proof.
  intros H. unfold calculateWorstCaseProtocolFee, Number.mul.
  by rewrite round_safe.
Qed.

(** C6. The fee is exactly the number of orders times
    [PROTOCOL_FEE_MULTIPLIER] times the gas price, for every array of
    orders (an array has at most 2^32 - 1 elements) and every gas price:
    the product of the length and the multiplier, a multiplier of magnitude
    at most 2^21, is an integer below 2^53, which the numbers of JavaScript
    hold without rounding. *)
Theorem protocol_fee_exact M orders gasPrice :
  (Z.abs M <= 2 ^ 21)%Z ->
  (Z.of_nat (length orders) <= Number.MAX_ARRAY_LENGTH)%Z ->
  (calculateWorstCaseProtocolFee M orders gasPrice
     == inject_Z (Z.of_nat (length orders)) * inject_Z M * gasPrice)%Q.
Proof.
  intros HM Hn. rewrite protocol_fee_safe.
  - by rewrite inject_Z_mult.
  - unfold Number.MAX_ARRAY_LENGTH in Hn.
    rewrite Z.abs_mul, (Z.abs_eq (Z.of_nat _)) by lia.
    change (2 ^ 53)%Z with (2 ^ 32 * 2 ^ 21)%Z.
    change (2 ^ 32 - 1)%Z with 4294967295%Z in Hn.
    change (2 ^ 21)%Z with 2097152%Z in *. change (2 ^ 32)%Z with 4294967296%Z.
    nia.
Qed.

(** ** The auction classifier *)

(** C10. [isDutchAuction] answers [false] for every order. *)
Theorem isDutchAuction_false (order : SignedOrder) : isDutchAuction order = false.
Proof. reflexivity. Qed.

(** ** The properties on the sample environment *)

Local Abbreviation sampleAllocator :=
  (buildMarketOrders Sample.getTokenByAssetData Sample.tokenAmountInUnitsToBigNumber
     Sample.unitsInTokenAmount Sample.toString Sample.heap).
Local Abbreviation sampleAllocation :=
  (allocation Sample.getTokenByAssetData Sample.tokenAmountInUnitsToBigNumber
     Sample.unitsInTokenAmount Sample.toString Sample.heap).


Lemma allocator_best_price_first_witness :
  stablySorted Buy (orders Sample.buy100)
    [Sample.order 2 2 40 None; Sample.order 1 3 80 None] /\
  exists k,
    [2%positive; 1%positive]
      = map rawOrder (take k [Sample.order 2 2 40 None; Sample.order 1 3 80 None]) /\
    forall s t,
      s ∈ take k [Sample.order 2 2 40 None; Sample.order 1 3 80 None] ->
      t ∈ drop k [Sample.order 2 2 40 None; Sample.order 1 3 80 None] ->
      ~ better Buy t s.
Proof.
  apply (allocator_best_price_first Sample.getTokenByAssetData Sample.tokenAmountInUnitsToBigNumber
           Sample.unitsInTokenAmount Sample.toString Sample.heap
           Sample.buy100 Buy [Sample.order 2 2 40 None; Sample.order 1 3 80 None]
           [2%positive; 1%positive] [80%Q; 180%Q] true).
  vm_compute. reflexivity.
Defined.

Lemma buy_side_conversion_witness :
  exists st k,
    sampleAllocation Sample.buy100 Buy = Ok st /\
    [2%positive; 1%positive]
      = map rawOrder (take k [Sample.order 2 2 40 None; Sample.order 1 3 80 None]) /\
    [80%Q; 180%Q] = map BigNumber.integerValue_ROUND_CEIL (amounts st) /\
    Forall3
      (fun order fillAmount a =>
         exists makerToken takerToken,
           Sample.getTokenByAssetData (makerAssetData (Sample.heap (rawOrder order)))
             = Some makerToken /\
           Sample.getTokenByAssetData (takerAssetData (Sample.heap (rawOrder order)))
             = Some takerToken /\
           a = Sample.unitsInTokenAmount
                 (Sample.toString
                    (Sample.tokenAmountInUnitsToBigNumber fillAmount (decimals makerToken)
                     * price order)%Q)
                 (decimals takerToken))
      (take k [Sample.order 2 2 40 None; Sample.order 1 3 80 None])
      (recorded st) (amounts st).
Proof.
  apply (proj2 (buy_side_conversion Sample.getTokenByAssetData Sample.tokenAmountInUnitsToBigNumber
           Sample.unitsInTokenAmount Sample.toString Sample.heap Buy)
           Sample.buy100 [Sample.order 2 2 40 None; Sample.order 1 3 80 None]
           [2%positive; 1%positive] [80%Q; 180%Q] true).
  vm_compute. reflexivity.
Defined.


(** C5, as stated, fails: the caller's array comes back in another order,
    and the plan holds the raw-order object of a candidate. *)
Lemma allocator_leaves_input_counterexample :
  fst (sampleAllocator Sample.buy100 Buy) <> orders Sample.buy100 /\
  exists os roundedAmounts canBeFilled o,
    snd (sampleAllocator Sample.buy100 Buy) = Ok (os, roundedAmounts, canBeFilled) /\
    o ∈ orders Sample.buy100 /\ rawOrder o ∈ os.
Proof.
  split.
  - vm_compute. discriminate.
  - exists [2%positive; 1%positive], [80%Q; 180%Q], true, (Sample.order 1 3 80 None).
    split; [vm_compute; reflexivity|]. split; [apply list_elem_of_here|].
    apply list_elem_of_further, list_elem_of_here.
Qed.

Lemma allocator_sorts_in_place_witness :
  stablySorted Buy (orders Sample.buy100) (fst (sampleAllocator Sample.buy100 Buy)) /\
  forall r, r ∈ [2%positive; 1%positive] ->
    exists o, o ∈ orders Sample.buy100 /\ rawOrder o = r.
Proof.
  destruct (allocator_sorts_in_place Sample.getTokenByAssetData
              Sample.tokenAmountInUnitsToBigNumber Sample.unitsInTokenAmount
              Sample.toString Sample.heap Sample.buy100 Buy) as [Hs Hr].
  split; [exact Hs|].
  apply (Hr _ [80%Q; 180%Q] true). vm_compute. reflexivity.
Defined.

Lemma allocator_edge_cases_witness :
  snd (sampleAllocator {| amount := 0 # 5; orders := orders Sample.buy100 |} Sell)
  = Ok ([], [], true).
Proof.
  apply (proj2 (allocator_edge_cases Sample.getTokenByAssetData
                  Sample.tokenAmountInUnitsToBigNumber Sample.unitsInTokenAmount
                  Sample.toString Sample.heap Sell)).
  vm_compute. reflexivity.
Defined.

Lemma valuator_length_check_witness :
  sumTakerAssetFillableOrders Sample.div Sample.heap Sell [1%positive; 2%positive] [3%Q]
    = Throw InvalidArgument /\
  returns (sumTakerAssetFillableOrders Sample.div Sample.heap Sell
             [1%positive; 2%positive] [3%Q; 4%Q]).
Proof.
  split.
  - apply (proj1 (valuator_length_check Sample.div Sample.heap Sell _ _)).
    simpl. discriminate.
  - apply (proj1 (proj2 (valuator_length_check Sample.div Sample.heap Sell _ _))).
    reflexivity.
Defined.

Lemma valuator_buy_is_plain_sum_witness :
  exists total,
    sumTakerAssetFillableOrders Sample.div Sample.heap Buy
      [1%positive; 2%positive] [80%Q; 180%Q] = Ok total /\
    (total == BigNumber.sum [80%Q; 180%Q])%Q /\
    forall div' h' ordersToFill',
      length ordersToFill' = length [1%positive; 2%positive] ->
      sumTakerAssetFillableOrders div' h' Buy ordersToFill' [80%Q; 180%Q] = Ok total.
Proof.
  apply (valuator_buy_is_plain_sum Sample.div Sample.heap
           [1%positive; 2%positive] [80%Q; 180%Q]).
  reflexivity.
Defined.

Lemma protocol_fee_exact_witness :
  (calculateWorstCaseProtocolFee Sample.PROTOCOL_FEE_MULTIPLIER
     [1%positive; 2%positive; 3%positive] (inject_Z (10 ^ 9))
   == inject_Z 3 * inject_Z 150000 * inject_Z (10 ^ 9))%Q.
Proof.
  apply (protocol_fee_exact Sample.PROTOCOL_FEE_MULTIPLIER
           [1%positive; 2%positive; 3%positive] (inject_Z (10 ^ 9))).
  - vm_compute. discriminate.
  - vm_compute. discriminate.
Defined.

(** ** The scenarios of the specification *)

Example scenario_buy :
  Sample.allocate Buy 100 [Sample.order 1 2 40 None; Sample.order 2 3 80 None]
  = ([Sample.order 1 2 40 None; Sample.order 2 3 80 None],
     Ok ([1%positive; 2%positive], [80%Q; 180%Q], true)) /\
  exists st,
    Sample.trace Buy 100 [Sample.order 1 2 40 None; Sample.order 2 3 80 None] = Ok st /\
    recorded st = [40%Q; 60%Q].
Proof. split; [vm_compute; reflexivity|]. eexists. split; vm_compute; reflexivity. Qed.

Example scenario_sell :
  Sample.allocate Sell 50 [Sample.order 1 3 10 None; Sample.order 2 2 25 (Some 5%Z)]
  = ([Sample.order 1 3 10 None; Sample.order 2 2 25 (Some 5%Z)],
     Ok ([1%positive; 2%positive], [10%Q; 20%Q], false)).
Proof. vm_compute. reflexivity. Qed.

Example scenario_empty : Sample.allocate Sell 10 [] = ([], Ok ([], [], false)).
Proof. reflexivity. Qed.

Example scenario_fee :
  (calculateWorstCaseProtocolFee Sample.PROTOCOL_FEE_MULTIPLIER
     [1%positive; 2%positive; 3%positive] (inject_Z (10 ^ 9))
   == inject_Z (3 * 150000 * 10 ^ 9))%Q.
Proof. vm_compute. reflexivity. Qed.

(** Candidates of equal price keep the order of the input, on both sides. *)
Example scenario_ties :
  fst (Sample.allocate Sell 1
         [Sample.order 1 2 1 None; Sample.order 2 5 1 None; Sample.order 3 2 1 None;
          Sample.order 4 5 1 None])
  = [Sample.order 2 5 1 None; Sample.order 4 5 1 None; Sample.order 1 2 1 None;
     Sample.order 3 2 1 None].
Proof. vm_compute. reflexivity. Qed.

(** ** Outside the preconditions *)

(** When buying, a candidate whose token the registry does not know makes
    the allocator throw once the loop reaches it; the array is sorted by
    then. *)
Example unknown_token_throws :
  Sample.allocate Buy 10 [Sample.order 9 3 10 None; Sample.order 2 2 5 None]
  = ([Sample.order 2 2 5 None; Sample.order 9 3 10 None], Throw UnknownToken).
Proof. vm_compute. reflexivity. Qed.

(** A candidate filled beyond its size has a negative availability, against
    the invariant of candidates; the total of such a list says nothing about
    what the first candidates can cover. *)
Example overfilled_candidate :
  (BigNumber.sum
     (map available [Sample.order 1 3 20 None; Sample.order 2 2 5 (Some 20%Z)]) < 10)%Q /\
  snd (Sample.allocate Sell 10 [Sample.order 1 3 20 None; Sample.order 2 2 5 (Some 20%Z)])
  = Ok ([1%positive], [10%Q], true).
Proof. split; vm_compute; reflexivity. Qed.

(** * Further properties *)

(** ** The shape of the greedy plan *)

Section GreedyPlan.
Context (getTokenByAssetData : string -> option Token)
  (tokenAmountInUnitsToBigNumber : BigNumber.t -> Z -> BigNumber.t)
  (unitsInTokenAmount : string -> Z -> BigNumber.t)
  (toString : BigNumber.t -> string)
  (h : Heap).

Local Abbreviation loopBody :=
  (loopBody getTokenByAssetData tokenAmountInUnitsToBigNumber unitsInTokenAmount toString h).
Local Abbreviation fillLoop :=
  (fillLoop getTokenByAssetData tokenAmountInUnitsToBigNumber unitsInTokenAmount toString h).
Local Abbreviation allocation :=
  (allocation getTokenByAssetData tokenAmountInUnitsToBigNumber unitsInTokenAmount toString h).
Local Abbreviation buildMarketOrders :=
  (buildMarketOrders getTokenByAssetData tokenAmountInUnitsToBigNumber unitsInTokenAmount
     toString h).

Lemma pushedAmount_le amount order st :
  (pushedAmount amount order st <= available order)%Q.
Proof.
  unfold pushedAmount.
  destruct (BigNumber.isGreaterThan _ _) eqn:E; [|lra].
  apply isGreaterThan_spec in E. unfold BigNumber.plus, BigNumber.minus in *. lra.
Qed.

(** What a run of the loop from [st] over [rest] does: it visits the first
    [k] candidates, each of them reached with the total still short of the
    target; it takes from each at most what it has, and all of it from every
    one but the last; it leaves candidates out only with the target reached;
    and it ends on the target or with the visited candidates emptied. *)
Lemma fillLoop_trace side amount rest : forall st st',
  fillLoop side amount rest (length (amounts st)) st = Ok st' ->
  exists k rs,
    (k <= length rest)%nat /\ length rs = k /\
    ordersToFill st' = ordersToFill st ++ map rawOrder (take k rest) /\
    recorded st' = recorded st ++ rs /\
    (forall j, (j < k)%nat ->
       (filledAmount st + BigNumber.sum (map available (take j rest)) < amount)%Q) /\
    (forall j o r, rest !! j = Some o -> rs !! j = Some r ->
       (r <= available o)%Q /\ ((S j < k)%nat -> r = available o)) /\
    ((k < length rest)%nat -> (amount <= filledAmount st')%Q) /\
    ((filledAmount st' == amount)%Q \/
     (rs = map available (take k rest) /\
      (filledAmount st' == filledAmount st + BigNumber.sum (map available (take k rest)))%Q)).
Proof.
  induction rest as [|order rest IH]; intros st st'; simpl.
  - intros [= <-]. exists 0%nat, []. rewrite !app_nil_r. simpl.
    repeat split; try done; try lia.
    right. split; [done|]. unfold BigNumber.ZERO. lra.
  - destruct (BigNumber.isLessThan _ _) eqn:Elt.
    + apply isLessThan_spec in Elt.
      destruct (loopBody side amount order _ st) as [st1|] eqn:E1; simpl; [|done].
      pose proof E1 as (Ho & Hr & Hf)%loopBody_frame.
      pose proof E1 as (a & _ & Hc)%loopBody_amounts.
      replace (S (length (amounts st))) with (length (amounts st1))
        by (rewrite Hc, length_app; simpl; lia).
      intros (k & rs & Hk & Hlen & Ho' & Hr' & Hneed & Hfill & Hstop & Hend)%IH.
      (* when the fill of [order] is capped, the loop ends there *)
      assert (BigNumber.isGreaterThan
                (BigNumber.plus (filledAmount st) (available order)) amount = true ->
              k = 0%nat) as Hcap.
      { intros Egt. destruct k as [|k]; [done|]. exfalso.
        specialize (Hneed 0%nat ltac:(lia)). simpl in Hneed.
        rewrite Hf in Hneed. unfold recordFill in Hneed. rewrite Egt in Hneed.
        simpl in Hneed. unfold BigNumber.ZERO in Hneed. lra. }
      assert (BigNumber.isGreaterThan
                (BigNumber.plus (filledAmount st) (available order)) amount = false ->
              pushedAmount amount order st = available order /\
              filledAmount st1 = BigNumber.plus (filledAmount st) (available order)) as Hfull.
      { intros Egt. rewrite Hf. unfold pushedAmount, recordFill. by rewrite Egt. }
      exists (S k), (pushedAmount amount order st :: rs). simpl.
      rewrite Ho', Ho, Hr', Hr, <- !app_assoc. simpl.
      split; [lia|]. split; [lia|]. split; [done|]. split; [done|].
      split; [|split; [|split]].
      * intros [|j] Hj; simpl.
        { unfold BigNumber.ZERO. lra. }
        specialize (Hneed j ltac:(lia)).
        destruct (BigNumber.isGreaterThan _ _) eqn:Egt.
        { specialize (Hcap eq_refl). lia. }
        destruct (Hfull eq_refl) as [_ Hf1]. rewrite Hf1 in Hneed.
        unfold BigNumber.plus in *. lra.
      * intros [|j] o r; simpl.
        { intros [= <-] [= <-]. split; [apply pushedAmount_le|].
          intros Hj. destruct (BigNumber.isGreaterThan _ _) eqn:Egt.
          - specialize (Hcap eq_refl). lia.
          - by destruct (Hfull eq_refl). }
        intros Hjo Hjr. destruct (Hfill j o r Hjo Hjr) as [Hle Heq].
        split; [exact Hle|]. intros Hj. apply Heq. lia.
      * intros Hlt. apply Hstop. lia.
      * destruct (BigNumber.isGreaterThan _ _) eqn:Egt.
        { left. pose proof (Hcap eq_refl) as Hk0. rewrite Hk0 in Hend.
          destruct Hend as [Hend|[_ Hend]]; [exact Hend|].
          rewrite Hend, Hf. unfold recordFill. rewrite Egt. simpl.
          unfold BigNumber.ZERO. lra. }
        destruct (Hfull eq_refl) as [Hp Hf1].
        destruct Hend as [Hend|[Hrs Hend]]; [by left|right].
        split; [by rewrite Hp, Hrs|].
        rewrite Hend, Hf1. unfold BigNumber.plus. lra.
    + apply isLessThan_false in Elt.
      intros [= <-]. exists 0%nat, []. rewrite !app_nil_r. simpl.
      repeat split; try done; try lia.
      right. split; [done|]. unfold BigNumber.ZERO. lra.
Qed.

Lemma allocation_trace params side st :
  allocation params side = Ok st ->
  let sorted := Array_sort (compareOrders side) (orders params) in
  exists k,
    (k <= length sorted)%nat /\ length (recorded st) = k /\
    ordersToFill st = map rawOrder (take k sorted) /\
    (forall j, (j < k)%nat ->
       (BigNumber.sum (map available (take j sorted)) < amount params)%Q) /\
    (forall j o r, sorted !! j = Some o -> recorded st !! j = Some r ->
       (r <= available o)%Q /\ ((S j < k)%nat -> r = available o)) /\
    ((k < length sorted)%nat -> (amount params <= filledAmount st)%Q) /\
    ((filledAmount st == amount params)%Q \/
     (recorded st = map available (take k sorted) /\
      (filledAmount st == BigNumber.sum (map available (take k sorted)))%Q)).
Proof.
  intros E sorted. unfold allocation in E. fold sorted in E.
  apply (fillLoop_trace side (amount params) sorted initialState) in E
    as (k & rs & Hk & Hlen & Ho & Hr & Hneed & Hfill & Hstop & Hend).
  simpl in *. subst rs. exists k.
  split; [exact Hk|]. split; [exact Hlen|]. split; [exact Ho|].
  split; [|split; [exact Hfill|split; [exact Hstop|]]].
  - intros j Hj. specialize (Hneed j Hj). unfold BigNumber.ZERO in Hneed. lra.
  - destruct Hend as [Hend|[Hrs Hend]]; [by left|right].
    split; [done|]. rewrite Hend. unfold BigNumber.ZERO. lra.
Qed.

(** X1. Every order of the plan was needed: when the allocator takes a
    candidate, the candidates ranked before it have together less available
    than the target amount. *)
Theorem plan_orders_all_needed params side sorted os roundedAmounts canBeFilled :
  buildMarketOrders params side = (sorted, Ok (os, roundedAmounts, canBeFilled)) ->
  exists k,
    os = map rawOrder (take k sorted) /\
    forall j, (j < k)%nat ->
      (BigNumber.sum (map available (take j sorted)) < amount params)%Q.
Proof.
  intros (-> & st & E & -> & _)%buildMarketOrders_Ok.
  destruct (allocation_trace _ _ _ E) as (k & _ & _ & Ho & Hneed & _).
  eauto.
Qed.



(** X4. The two arrays of the plan have the same length, which is at most
    the number of candidates. *)
Theorem plan_arrays_aligned params side sorted os roundedAmounts canBeFilled :
  buildMarketOrders params side = (sorted, Ok (os, roundedAmounts, canBeFilled)) ->
  length os = length roundedAmounts /\ (length os <= length (orders params))%nat.
Proof.
  intros (-> & st & E & -> & -> & _)%buildMarketOrders_Ok.
  destruct (allocation_visits _ _ _ _ _ _ _ _ E) as (k & Ho & HF).
  rewrite length_map, Ho, length_map.
  split; [by eapply Forall3_length_lr|].
  rewrite length_take, Array_sort_length. lia.
Qed.

(** X5. When selling, each amount of the plan is the recorded amount
    rounded up to a whole number of base units: not less than what was
    recorded, and less than one unit more. *)
Theorem sell_amounts_round_up params sorted os roundedAmounts canBeFilled :
  buildMarketOrders params Sell = (sorted, Ok (os, roundedAmounts, canBeFilled)) ->
  exists st,
    allocation params Sell = Ok st /\
    Forall2 (fun r a => a = inject_Z (Qceiling r) /\ (r <= a)%Q /\ (a < r + 1)%Q)
      (recorded st) roundedAmounts.
Proof.
  intros (-> & st & E & -> & -> & _)%buildMarketOrders_Ok.
  exists st. split; [exact E|].
  destruct (allocation_visits _ _ _ _ _ _ _ _ E) as (k & _ & HF).
  apply Forall3_same_mr in HF. rewrite HF.
  apply Forall2_fmap_r, Forall_Forall2_diag, Forall_forall. intros r _.
  unfold BigNumber.integerValue_ROUND_CEIL. split; [done|].
  split; [apply Qle_ceiling|].
  pose proof (Qceiling_lt r) as Hlt.
  unfold Z.sub in Hlt. rewrite inject_Z_plus, inject_Z_opp in Hlt.
  change (inject_Z 1) with 1%Q in Hlt.
  generalize dependent (inject_Z (Qceiling r)). intros c Hlt. lra.
Qed.

Lemma Array_sort_already_sorted side (l : list UIOrder) :
  StronglySorted (notWorse side) l -> Array_sort (compareOrders side) l = l.
Proof.
  intros Hs. symmetry. apply stable_sort_unique. by repeat split.
Qed.

Lemma Array_sort_tie_order side (l l' : list UIOrder) :
  (forall p, pricedAt p l = pricedAt p l') ->
  Array_sort (compareOrders side) l = Array_sort (compareOrders side) l'.
Proof.
  intros Hp. apply (sorted_pricedAt_eq side); try apply Array_sort_sorted.
  intros p. by rewrite !pricedAt_Array_sort.
Qed.

(** X6. The order of the caller's array matters only among candidates of
    equal price: two arrays whose candidates of each price are the same, in
    the same order, give the same plan and are left in the same state. *)
Theorem plan_depends_on_tie_order_only target side (l l' : list UIOrder) :
  (forall p, pricedAt p l = pricedAt p l') ->
  buildMarketOrders {| amount := target; orders := l |} side
  = buildMarketOrders {| amount := target; orders := l' |} side.
Proof.
  intros Hp. unfold buildMarketOrders. simpl.
  by rewrite (Array_sort_tie_order side l l' Hp).
Qed.

(** X7. An array already sorted for the side is left as it is; so a second
    call on the array a first call has sorted gives the same plan and leaves
    the array alone. *)
Theorem second_call_same_plan params side :
  (StronglySorted (notWorse side) (orders params) ->
     fst (buildMarketOrders params side) = orders params) /\
  buildMarketOrders
    {| amount := amount params; orders := fst (buildMarketOrders params side) |} side
  = buildMarketOrders params side.
Proof.
  split.
  - intros Hs. simpl. by apply Array_sort_already_sorted.
  - unfold buildMarketOrders. simpl.
    by rewrite (Array_sort_already_sorted side (Array_sort _ _) (Array_sort_sorted _ _)).
Qed.

Lemma pushedAmount_nonneg amount order st :
  (filledAmount st < amount)%Q -> (0 <= available order)%Q ->
  (0 <= pushedAmount amount order st)%Q.
Proof.
  intros Hlt Hav. unfold pushedAmount.
  destruct (BigNumber.isGreaterThan _ _); [|done].
  unfold BigNumber.minus. lra.
Qed.

Lemma fillLoop_nonneg side amount rest : forall i st st',
  Forall (fun o => (0 <= available o)%Q) rest ->
  Forall (fun r => (0 <= r)%Q) (recorded st) ->
  fillLoop side amount rest i st = Ok st' ->
  Forall (fun r => (0 <= r)%Q) (recorded st').
Proof.
  induction rest as [|order rest IH]; intros i st st' Hav Hst; simpl.
  - by intros [= <-].
  - destruct (BigNumber.isLessThan _ _) eqn:Elt; [|by intros [= <-]].
    apply isLessThan_spec in Elt. apply Forall_cons in Hav as [Ho Hav].
    destruct (loopBody side amount order i st) as [st1|] eqn:E1; simpl; [|done].
    apply loopBody_frame in E1 as (_ & Hr & _).
    apply IH; [exact Hav|]. rewrite Hr. apply Forall_app. split; [exact Hst|].
    constructor; [|constructor]. by apply pushedAmount_nonneg.
Qed.

(** X18. Fills are never negative: when no candidate has a negative
    availability, every recorded amount is at least zero, and so is every
    amount of a plan to sell. *)
Theorem fills_not_negative params side sorted os roundedAmounts canBeFilled :
  Forall (fun o => (0 <= available o)%Q) (orders params) ->
  buildMarketOrders params side = (sorted, Ok (os, roundedAmounts, canBeFilled)) ->
  exists st,
    allocation params side = Ok st /\
    Forall (fun r => (0 <= r)%Q) (recorded st) /\
    (side = Sell -> Forall (fun a => (0 <= a)%Q) roundedAmounts).
Proof.
  intros Hav (-> & st & E & -> & -> & _)%buildMarketOrders_Ok.
  assert (Forall (fun r => (0 <= r)%Q) (recorded st)) as Hrec.
  { eapply (fillLoop_nonneg side (amount params)); [| |exact E].
    - by rewrite Array_sort_Permutation.
    - constructor. }
  exists st. split; [exact E|]. split; [exact Hrec|].
  intros ->. destruct (allocation_visits _ _ _ _ _ _ _ _ E) as (k & _ & HF).
  apply Forall3_same_mr in HF. rewrite HF.
  apply Forall_fmap. eapply Forall_impl; [exact Hrec|].
  intros r Hr. simpl in *. unfold BigNumber.integerValue_ROUND_CEIL.
  pose proof (Qle_ceiling r) as Hc.
  generalize dependent (inject_Z (Qceiling r)). intros c Hc. lra.
Qed.

Lemma sum_round_up (rs : list BigNumber.t) :
  (BigNumber.sum rs <= BigNumber.sum (map BigNumber.integerValue_ROUND_CEIL rs))%Q /\
  (BigNumber.sum (map BigNumber.integerValue_ROUND_CEIL rs)
   < BigNumber.sum rs + inject_Z (Z.of_nat (length rs)) \/ rs = [])%Q.
Proof.
  induction rs as [|r rs [IHle IHlt]]; simpl.
  - split; [lra|by right].
  - unfold BigNumber.plus, BigNumber.integerValue_ROUND_CEIL in *.
    pose proof (Qle_ceiling r) as Hle. pose proof (Qceiling_lt r) as Hlt.
    unfold Z.sub in Hlt. rewrite inject_Z_plus, inject_Z_opp in Hlt.
    change (inject_Z 1) with 1%Q in Hlt.
    generalize dependent (inject_Z (Qceiling r)). intros c Hle Hlt.
    rewrite Nat2Z.inj_succ, <- Z.add_1_r, inject_Z_plus.
    change (inject_Z 1) with 1%Q.
    split; [lra|left].
    destruct IHlt as [IHlt| ->]; [lra|]. simpl in *.
    change (inject_Z (Z.of_nat 0)) with 0%Q. unfold BigNumber.ZERO. lra.
Qed.

(** X19. A plan to sell that is reported as fully filled covers the
    target: with a target amount that is not negative, the amounts of the
    plan add up to at least the target, and exceed it by no more than one
    unit for each order. *)
Theorem sell_plan_covers_target params sorted os roundedAmounts :
  (0 <= amount params)%Q ->
  buildMarketOrders params Sell = (sorted, Ok (os, roundedAmounts, true)) ->
  (amount params <= BigNumber.sum roundedAmounts)%Q /\
  (BigNumber.sum roundedAmounts <= amount params + inject_Z (Z.of_nat (length os)))%Q.
Proof.
  intros H0 Hrun. pose proof Hrun as (-> & st & E & -> & -> & Hflag)%buildMarketOrders_Ok.
  destruct (fillLoop_conserved _ _ _ _ _ Sell (amount params) _ _ _ _
              (initialState_conserved _ H0) E) as [Hs _].
  symmetry in Hflag. apply eq_spec in Hflag.
  destruct (allocation_visits _ _ _ _ _ _ _ _ E) as (k & Ho & HF).
  pose proof (Forall3_length_lm _ _ _ _ HF) as Hl1.
  apply Forall3_same_mr in HF.
  assert (length (ordersToFill st) = length (recorded st)) as Hlen.
  { rewrite Ho, length_map. exact Hl1. }
  rewrite HF, Hlen.
  destruct (sum_round_up (recorded st)) as [Hle Hlt].
  split; [lra|].
  destruct Hlt as [Hlt|Hnil]; [lra|].
  rewrite Hnil in *. simpl in *. change (inject_Z (Z.of_nat 0)) with 0%Q.
  unfold BigNumber.ZERO in *. lra.
Qed.

End GreedyPlan.

(** ** The valuator on whole plans *)

Section ValuatorMore.
Context (div : BigNumber.t -> BigNumber.t -> BigNumber.t) (h : Heap).

Lemma reduceFrom_total side amounts rest : forall index sum,
  (index + length rest = length amounts)%nat ->
  exists total,
    reduceFrom div h side amounts rest index sum = Ok total /\
    (total == sum + BigNumber.sum (considerations div h side rest (drop index amounts)))%Q.
Proof.
  induction rest as [|order rest IH]; intros index sum Hlen; simpl in *.
  - exists sum. split; [done|]. unfold considerations. simpl.
    unfold BigNumber.ZERO. lra.
  - unfold addFill.
    destruct (lookup_lt_is_Some_2 amounts index) as [a Ha]; [lia|].
    rewrite Ha. simpl.
    destruct (IH (S index)
                (BigNumber.plus sum (BigNumber.multipliedBy a (unitPrice div h side order))))
      as (total & E & Ht); [lia|].
    exists total. split; [exact E|].
    rewrite Ht, (drop_S _ _ _ Ha). unfold considerations. simpl.
    unfold BigNumber.plus. lra.
Qed.

(** With arrays of equal length the valuator is the [reduce], the empty
    case included. *)
Lemma sumTakerAssetFillableOrders_reduce side ordersToFill amounts :
  length ordersToFill = length amounts ->
  sumTakerAssetFillableOrders div h side ordersToFill amounts
  = reduceFrom div h side amounts ordersToFill 0 BigNumber.ZERO.
Proof.
  intros Heq. unfold sumTakerAssetFillableOrders.
  rewrite Heq, Nat.eqb_refl. simpl.
  destruct (length amounts =? 0)%nat eqn:E0; [|done].
  apply Nat.eqb_eq in E0. destruct amounts; [|done]. by destruct ordersToFill.
Qed.

(** X8. For arrays of equal length the valuator returns the sum, over the
    orders, of the amount times the unit price of the order: 1 when buying,
    [makerAssetAmount.div(takerAssetAmount)] when selling. *)
Theorem valuator_total side ordersToFill amounts :
  length ordersToFill = length amounts ->
  exists total,
    sumTakerAssetFillableOrders div h side ordersToFill amounts = Ok total /\
    (total == BigNumber.sum (considerations div h side ordersToFill amounts))%Q.
Proof.
  intros Heq. rewrite sumTakerAssetFillableOrders_reduce by done.
  destruct (reduceFrom_total side amounts ordersToFill 0 BigNumber.ZERO)
    as (total & E & Ht); [simpl; lia|].
  exists total. split; [exact E|].
  rewrite Ht, drop_0. unfold BigNumber.ZERO. lra.
Qed.

Lemma considerations_app side os1 os2 as1 as2 :
  length os1 = length as1 ->
  considerations div h side (os1 ++ os2) (as1 ++ as2)
  = considerations div h side os1 as1 ++ considerations div h side os2 as2.
Proof. intros Hlen. unfold considerations. by apply zip_with_app. Qed.

(** X9. The valuator is additive: the total of two plans put end to end is
    the sum of their totals. *)
Theorem valuator_additive side os1 as1 os2 as2 :
  length os1 = length as1 ->
  length os2 = length as2 ->
  exists t1 t2 t,
    sumTakerAssetFillableOrders div h side os1 as1 = Ok t1 /\
    sumTakerAssetFillableOrders div h side os2 as2 = Ok t2 /\
    sumTakerAssetFillableOrders div h side (os1 ++ os2) (as1 ++ as2) = Ok t /\
    (t == t1 + t2)%Q.
Proof.
  intros H1 H2.
  rewrite !sumTakerAssetFillableOrders_reduce by (rewrite ?length_app; lia).
  destruct (reduceFrom_total side as1 os1 0 BigNumber.ZERO)
    as (t1 & E1 & Ht1); [simpl; lia|].
  destruct (reduceFrom_total side as2 os2 0 BigNumber.ZERO)
    as (t2 & E2 & Ht2); [simpl; lia|].
  destruct (reduceFrom_total side (as1 ++ as2) (os1 ++ os2) 0 BigNumber.ZERO)
    as (t & E & Ht); [simpl; rewrite !length_app; lia|].
  exists t1, t2, t. split; [exact E1|]. split; [exact E2|]. split; [exact E|].
  rewrite Ht, Ht1, Ht2, !drop_0, considerations_app, sum_app by done.
  unfold BigNumber.ZERO. lra.
Qed.

End ValuatorMore.

Section PlanValuation.
Context (getTokenByAssetData : string -> option Token)
  (tokenAmountInUnitsToBigNumber : BigNumber.t -> Z -> BigNumber.t)
  (unitsInTokenAmount : string -> Z -> BigNumber.t)
  (toString : BigNumber.t -> string)
  (div : BigNumber.t -> BigNumber.t -> BigNumber.t)
  (h : Heap).

(** X10. The valuator accepts every plan of the allocator: it does not
    throw on it, on either side, and when buying its total is the sum of the
    amounts of the plan. *)
Theorem valuator_accepts_plan params side sorted os roundedAmounts canBeFilled :
  buildMarketOrders getTokenByAssetData tokenAmountInUnitsToBigNumber unitsInTokenAmount
    toString h params side = (sorted, Ok (os, roundedAmounts, canBeFilled)) ->
  (forall side', returns (sumTakerAssetFillableOrders div h side' os roundedAmounts)) /\
  exists total,
    sumTakerAssetFillableOrders div h Buy os roundedAmounts = Ok total /\
    (total == BigNumber.sum roundedAmounts)%Q.
Proof.
  intros (-> & st & E & -> & -> & _)%buildMarketOrders_Ok.
  destruct (allocation_visits _ _ _ _ _ _ _ _ E) as (k & Ho & HF).
  assert (length (ordersToFill st)
          = length (map BigNumber.integerValue_ROUND_CEIL (amounts st))) as Hlen.
  { rewrite length_map, Ho, length_map. by eapply Forall3_length_lr. }
  split.
  - intros side'. rewrite (sumTakerAssetFillableOrders_reduce div h side' _ _ Hlen).
    apply reduceFrom_returns. simpl. lia.
  - rewrite (sumTakerAssetFillableOrders_Buy div h _ _ Hlen).
    eexists. split; [done|]. rewrite buyTotal_sum. unfold BigNumber.ZERO. lra.
Qed.

End PlanValuation.

(** ** The protocol fee of plans *)

(** X11. Without orders there is no fee, whatever the multiplier; and with
    a multiplier of magnitude at most 2^21, the fee of two arrays of orders
    put end to end is the sum of their fees. *)
Theorem protocol_fee_additive M os1 os2 gasPrice :
  (calculateWorstCaseProtocolFee M [] gasPrice == 0)%Q /\
  ((Z.abs M <= 2 ^ 21)%Z ->
   (Z.of_nat (length (os1 ++ os2)) <= Number.MAX_ARRAY_LENGTH)%Z ->
   (calculateWorstCaseProtocolFee M (os1 ++ os2) gasPrice
    == calculateWorstCaseProtocolFee M os1 gasPrice
       + calculateWorstCaseProtocolFee M os2 gasPrice)%Q).
Proof.
  assert (forall os : list ref, (Z.abs M <= 2 ^ 21)%Z ->
            (Z.of_nat (length os) <= Number.MAX_ARRAY_LENGTH)%Z ->
            (Z.abs (Z.of_nat (length os) * M) < 2 ^ 53)%Z) as Hsafe.
  { intros os HM Hn. unfold Number.MAX_ARRAY_LENGTH in Hn.
    rewrite Z.abs_mul, (Z.abs_eq (Z.of_nat _)) by lia.
    change (2 ^ 53)%Z with (4294967296 * 2097152)%Z.
    change (2 ^ 32 - 1)%Z with 4294967295%Z in Hn.
    change (2 ^ 21)%Z with 2097152%Z in HM. nia. }
  split.
  - rewrite protocol_fee_safe by (simpl; lia).
    simpl. change (inject_Z (Z.of_nat 0 * M)) with 0%Q. lra.
  - intros HM Hn. rewrite length_app in Hn.
    rewrite !protocol_fee_safe.
    + rewrite length_app, Nat2Z.inj_add, Z.mul_add_distr_r, inject_Z_plus. lra.
    + apply Hsafe; [done|lia].
    + apply Hsafe; [done|lia].
    + apply Hsafe; [done|]. rewrite length_app. lia.
Qed.

(** X12. The fee grows with the number of orders: for a multiplier between
    0 and 2^21 and a gas price that is not negative, fewer orders never cost
    more. *)
Theorem protocol_fee_monotone M (os os' : list ref) gasPrice :
  (0 <= M <= 2 ^ 21)%Z ->
  (0 <= gasPrice)%Q ->
  (length os <= length os')%nat ->
  (Z.of_nat (length os') <= Number.MAX_ARRAY_LENGTH)%Z ->
  (calculateWorstCaseProtocolFee M os gasPrice
   <= calculateWorstCaseProtocolFee M os' gasPrice)%Q.
Proof.
  intros HM Hg Hle Hn.
  assert (forall l : list ref, (length l <= length os')%nat ->
            (Z.abs (Z.of_nat (length l) * M) < 2 ^ 53)%Z) as Hsafe.
  { intros l Hl. unfold Number.MAX_ARRAY_LENGTH in Hn.
    rewrite Z.abs_eq by nia.
    change (2 ^ 53)%Z with (4294967296 * 2097152)%Z.
    change (2 ^ 32 - 1)%Z with 4294967295%Z in Hn.
    change (2 ^ 21)%Z with 2097152%Z in HM. nia. }
  rewrite !protocol_fee_safe by (apply Hsafe; lia).
  apply Qmult_le_compat_r; [|exact Hg].
  rewrite <- Zle_Qle. apply Z.mul_le_mono_nonneg_r; lia.
Qed.

(** ** Orders for the relayer *)

Lemma round_spec (x : BigNumber.t) : (round x <= x)%Q /\ (x < round x + 1)%Q.
Proof.
  unfold round. split; [apply Qfloor_le|].
  pose proof (Qlt_floor x) as Hlt. rewrite inject_Z_plus in Hlt. exact Hlt.
Qed.

Lemma OrderConfigRequest_other exchange makerData takerData makerAmount takerAmount
    maker taker expiration (key : string) :
  key ∉ ["exchangeAddress"; "makerAssetData"; "takerAssetData"; "makerAssetAmount";
         "takerAssetAmount"; "makerAddress"; "takerAddress"; "expirationTimeSeconds"] ->
  OrderConfigRequest exchange makerData takerData makerAmount takerAmount
    maker taker expiration !! key = None.
Proof.
  intros Hkey. unfold OrderConfigRequest. simpl.
  rewrite !lookup_insert_ne; [apply lookup_empty|..];
    intros <-; apply Hkey; repeat constructor.
Qed.

Section OrderBuilderFacts.
Context (encodeERC721AssetData : string -> BigNumber.t -> option string)
  (encodeERC20AssetData : string -> option string)
  (getTokenByAddress : string -> option Token)
  (tokenAmountInUnitsToBigNumber : BigNumber.t -> Z -> BigNumber.t)
  (unitsInTokenAmount : string -> Z -> BigNumber.t)
  (toString : BigNumber.t -> string)
  (ZERO_ADDRESS : string) (CHAIN_ID : Z)
  (getOrderConfigAsync : Obj -> promise Obj)
  (now : Z) (expirationTime : BigNumber.t).

Local Abbreviation getOrderWithTakerAndFeeConfigFromRelayer :=
  (getOrderWithTakerAndFeeConfigFromRelayer CHAIN_ID getOrderConfigAsync now).
Local Abbreviation sellCollectibleOrderRequest :=
  (sellCollectibleOrderRequest encodeERC721AssetData encodeERC20AssetData ZERO_ADDRESS).
Local Abbreviation quoteAmount :=
  (quoteAmount tokenAmountInUnitsToBigNumber unitsInTokenAmount toString).
Local Abbreviation limitOrderRequest :=
  (limitOrderRequest encodeERC20AssetData getTokenByAddress tokenAmountInUnitsToBigNumber
     unitsInTokenAmount toString ZERO_ADDRESS expirationTime).
Local Abbreviation buildLimitOrder :=
  (buildLimitOrder encodeERC20AssetData getTokenByAddress tokenAmountInUnitsToBigNumber
     unitsInTokenAmount toString ZERO_ADDRESS CHAIN_ID getOrderConfigAsync now
     expirationTime).

(** X13. The order that comes back from the relayer: a rejection of the
    relayer is passed on; otherwise [salt] is the time of the call and
    [chainId] the constant, whatever the relayer answered, and every other
    field is the one of the relayer's answer when it has one, and the one of
    the request when it has not. *)
Theorem relayer_answer_overrides_request (orderConfigRequest : Obj) :
  match getOrderConfigAsync orderConfigRequest with
  | Rejected r => getOrderWithTakerAndFeeConfigFromRelayer orderConfigRequest = Rejected r
  | Fulfilled orderResult =>
      exists order : Obj,
        getOrderWithTakerAndFeeConfigFromRelayer orderConfigRequest = Fulfilled order /\
        order !! "salt" = Some (VBigNumber (inject_Z now)) /\
        order !! "chainId" = Some (VNumber CHAIN_ID) /\
        forall key : string, key <> "salt" -> key <> "chainId" ->
          order !! key = match orderResult !! key with
                         | Some v => Some v
                         | None => orderConfigRequest !! key
                         end
  end.
Proof.
  unfold getOrderWithTakerAndFeeConfigFromRelayer.
  destruct (getOrderConfigAsync orderConfigRequest) as [orderResult|r]; simpl; [|done].
  eexists. split; [done|].
  split; [apply lookup_insert_eq|].
  split; [by rewrite lookup_insert_ne, lookup_insert_eq|].
  intros key Hs Hc.
  rewrite !lookup_insert_ne, lookup_union by done.
  by destruct (orderResult !! key), (orderConfigRequest !! key).
Qed.

(** X14. A limit order to buy and one to sell, built from the same
    parameters, are mirror images: the asset data and the amounts of maker
    and taker change places, and every other field of the request is the
    same. The side has no part in whether the request can be built. *)
Theorem limit_order_sides_mirror (params : BuildLimitOrderParams.t) :
  match limitOrderRequest params Buy, limitOrderRequest params Sell with
  | Fulfilled buy, Fulfilled sell =>
      buy !! "makerAssetData" = sell !! "takerAssetData" /\
      buy !! "takerAssetData" = sell !! "makerAssetData" /\
      buy !! "makerAssetAmount" = sell !! "takerAssetAmount" /\
      buy !! "takerAssetAmount" = sell !! "makerAssetAmount" /\
      forall key : string,
        key ∉ ["makerAssetData"; "takerAssetData"; "makerAssetAmount"; "takerAssetAmount"] ->
        buy !! key = sell !! key
  | Rejected r, Rejected r' => r = r'
  | _, _ => False
  end.
Proof.
  unfold limitOrderRequest.
  destruct (encodeERC20AssetData (BuildLimitOrderParams.baseTokenAddress params));
    simpl; [|done].
  destruct (encodeERC20AssetData (BuildLimitOrderParams.quoteTokenAddress params));
    simpl; [|done].
  destruct (getTokenByAddress (BuildLimitOrderParams.baseTokenAddress params));
    simpl; [|done].
  destruct (getTokenByAddress (BuildLimitOrderParams.quoteTokenAddress params));
    simpl; [|done].
  do 4 (split; [reflexivity|]).
  intros key Hkey. unfold OrderConfigRequest. simpl.
  rewrite !lookup_insert.
  repeat case_decide; try done; subst key; exfalso; apply Hkey; repeat constructor.
Qed.

(** X15. In the request of a limit order the base amount is the one
    given, as it is, on the taker's side when buying and on the maker's side
    when selling; the amount on the other side is the quote amount (the base
    amount in units of the base token, times the price, in base units of the
    quote token) rounded down to a whole number: the greatest integer that is
    at most the converted amount. *)
Theorem limit_order_amounts (params : BuildLimitOrderParams.t) side (request : Obj) :
  limitOrderRequest params side = Fulfilled request ->
  exists baseToken quoteToken,
    getTokenByAddress (BuildLimitOrderParams.baseTokenAddress params) = Some baseToken /\
    getTokenByAddress (BuildLimitOrderParams.quoteTokenAddress params) = Some quoteToken /\
    let exact :=
      unitsInTokenAmount
        (toString
           (tokenAmountInUnitsToBigNumber (BuildLimitOrderParams.amount params)
              (decimals baseToken)
            * BuildLimitOrderParams.price params)%Q)
        (decimals quoteToken) in
    let rounded := inject_Z (Qfloor exact) in
    (rounded <= exact)%Q /\ (exact < rounded + 1)%Q /\
    request !! (match side with Buy => "takerAssetAmount" | Sell => "makerAssetAmount" end)
      = Some (VBigNumber (BuildLimitOrderParams.amount params)) /\
    request !! (match side with Buy => "makerAssetAmount" | Sell => "takerAssetAmount" end)
      = Some (VBigNumber rounded).
Proof.
  unfold limitOrderRequest.
  destruct (encodeERC20AssetData (BuildLimitOrderParams.baseTokenAddress params));
    simpl; [|done].
  destruct (encodeERC20AssetData (BuildLimitOrderParams.quoteTokenAddress params));
    simpl; [|done].
  destruct (getTokenByAddress (BuildLimitOrderParams.baseTokenAddress params))
    as [baseToken|]; simpl; [|done].
  destruct (getTokenByAddress (BuildLimitOrderParams.quoteTokenAddress params))
    as [quoteToken|]; simpl; [|done].
  intros [= <-]. exists baseToken, quoteToken.
  split; [done|]. split; [done|]. simpl.
  split; [apply Qfloor_le|].
  split; [|by destruct side].
  match goal with |- (?x < _)%Q => pose proof (Qlt_floor x) as Hlt end.
  rewrite inject_Z_plus in Hlt. exact Hlt.
Qed.

(** X16. A limit order for a token the registry does not know is rejected
    before the relayer is asked: the outcome is [TokenNotFound] whatever the
    relayer would answer. *)
Theorem limit_order_rejects_unknown_token (params : BuildLimitOrderParams.t) side :
  is_Some (encodeERC20AssetData (BuildLimitOrderParams.baseTokenAddress params)) ->
  is_Some (encodeERC20AssetData (BuildLimitOrderParams.quoteTokenAddress params)) ->
  getTokenByAddress (BuildLimitOrderParams.baseTokenAddress params) = None \/
  getTokenByAddress (BuildLimitOrderParams.quoteTokenAddress params) = None ->
  buildLimitOrder params side = Rejected TokenNotFound.
Proof.
  intros [b Hb] [q Hq] Hunknown.
  unfold buildLimitOrder, limitOrderRequest. rewrite Hb, Hq. simpl.
  destruct Hunknown as [-> | Hquote]; [done|].
  destruct (getTokenByAddress (BuildLimitOrderParams.baseTokenAddress params)); simpl; [|done].
  by rewrite Hquote.
Qed.

(** X17. The request for a collectible has the collectible as maker asset
    and WETH as taker asset on both sides; the side only decides which of
    the two amounts is the given amount and which is the amount times the
    price rounded down to a whole number, the greatest integer that is at
    most the product. It can fail to be built only through an encoder. *)
Theorem collectible_order_request (params : BuildSellCollectibleOrderParams.t) side :
  let amount := BuildSellCollectibleOrderParams.amount params in
  let total := (amount * BuildSellCollectibleOrderParams.price params)%Q in
  let rounded := inject_Z (Qfloor total) in
  match sellCollectibleOrderRequest params side with
  | Rejected r =>
      r = EncodingFailed /\
      (encodeERC721AssetData (BuildSellCollectibleOrderParams.collectibleAddress params)
         (BuildSellCollectibleOrderParams.collectibleId params) = None \/
       encodeERC20AssetData (BuildSellCollectibleOrderParams.wethAddress params) = None)
  | Fulfilled request =>
      request !! "makerAssetData"
        = VString <$> encodeERC721AssetData
            (BuildSellCollectibleOrderParams.collectibleAddress params)
            (BuildSellCollectibleOrderParams.collectibleId params) /\
      request !! "takerAssetData"
        = VString <$> encodeERC20AssetData (BuildSellCollectibleOrderParams.wethAddress params) /\
      (rounded <= total)%Q /\ (total < rounded + 1)%Q /\
      request !! (match side with Buy => "takerAssetAmount" | Sell => "makerAssetAmount" end)
        = Some (VBigNumber amount) /\
      request !! (match side with Buy => "makerAssetAmount" | Sell => "takerAssetAmount" end)
        = Some (VBigNumber rounded)
  end.
Proof.
  intros amount total rounded. unfold sellCollectibleOrderRequest.
  destruct (encodeERC721AssetData _ _); simpl; [|by auto].
  destruct (encodeERC20AssetData _); simpl; [|by auto].
  split; [done|]. split; [done|].
  split; [apply Qfloor_le|].
  split; [|by destruct side].
  pose proof (Qlt_floor total) as Hlt.
  rewrite inject_Z_plus in Hlt. exact Hlt.
Qed.

End OrderBuilderFacts.

(** ** The further properties on the samples *)

Local Abbreviation sampleLimitOrder :=
  (buildLimitOrder SampleOrders.encodeERC20AssetData SampleOrders.getTokenByAddress
     Sample.tokenAmountInUnitsToBigNumber Sample.unitsInTokenAmount Sample.toString
     SampleOrders.ZERO_ADDRESS SampleOrders.CHAIN_ID SampleOrders.getOrderConfigAsync
     SampleOrders.now SampleOrders.expirationTime).
Local Abbreviation sampleRelayerOrder :=
  (getOrderWithTakerAndFeeConfigFromRelayer SampleOrders.CHAIN_ID
     SampleOrders.getOrderConfigAsync SampleOrders.now).

Lemma plan_orders_all_needed_witness :
  exists k,
    [2%positive; 1%positive]
      = map rawOrder (take k [Sample.order 2 2 40 None; Sample.order 1 3 80 None]) /\
    forall j, (j < k)%nat ->
      (BigNumber.sum
         (map available (take j [Sample.order 2 2 40 None; Sample.order 1 3 80 None]))
       < 100)%Q.
Proof.
  apply (plan_orders_all_needed Sample.getTokenByAssetData
           Sample.tokenAmountInUnitsToBigNumber Sample.unitsInTokenAmount Sample.toString
           Sample.heap Sample.buy100 Buy
           [Sample.order 2 2 40 None; Sample.order 1 3 80 None]
           [2%positive; 1%positive] [80%Q; 180%Q] true).
  vm_compute. reflexivity.
Defined.



Lemma plan_arrays_aligned_witness :
  length [2%positive; 1%positive] = length [80%Q; 180%Q] /\
  (length [2%positive; 1%positive] <= length (orders Sample.buy100))%nat.
Proof.
  apply (plan_arrays_aligned Sample.getTokenByAssetData
           Sample.tokenAmountInUnitsToBigNumber Sample.unitsInTokenAmount Sample.toString
           Sample.heap Sample.buy100 Buy
           [Sample.order 2 2 40 None; Sample.order 1 3 80 None]
           [2%positive; 1%positive] [80%Q; 180%Q] true).
  vm_compute. reflexivity.
Defined.

Lemma sell_amounts_round_up_witness :
  exists st,
    sampleAllocation SampleOrders.sellHalf Sell = Ok st /\
    Forall2 (fun r a => a = inject_Z (Qceiling r) /\ (r <= a)%Q /\ (a < r + 1)%Q)
      (recorded st) [1%Q; 2%Q].
Proof.
  apply (sell_amounts_round_up Sample.getTokenByAssetData
           Sample.tokenAmountInUnitsToBigNumber Sample.unitsInTokenAmount Sample.toString
           Sample.heap SampleOrders.sellHalf
           [Sample.order 1 3 1 None; Sample.order 2 2 4 None]
           [1%positive; 2%positive] [1%Q; 2%Q] true).
  vm_compute. reflexivity.
Defined.

Lemma plan_depends_on_tie_order_only_witness :
  sampleAllocator
    {| amount := 100%Q; orders := [Sample.order 1 3 80 None; Sample.order 2 2 40 None] |} Buy
  = sampleAllocator
      {| amount := 100%Q; orders := [Sample.order 2 2 40 None; Sample.order 1 3 80 None] |} Buy.
Proof.
  apply (plan_depends_on_tie_order_only Sample.getTokenByAssetData
           Sample.tokenAmountInUnitsToBigNumber Sample.unitsInTokenAmount Sample.toString
           Sample.heap 100%Q Buy).
  intros p. unfold pricedAt. simpl.
  destruct (BigNumber.eq (inject_Z 3) p) eqn:E3, (BigNumber.eq (inject_Z 2) p) eqn:E2;
    try reflexivity.
  exfalso. apply eq_spec in E3, E2. rewrite <- E2 in E3. vm_compute in E3. discriminate.
Defined.

Lemma second_call_same_plan_witness :
  fst (sampleAllocator
         {| amount := 100%Q;
            orders := [Sample.order 2 2 40 None; Sample.order 1 3 80 None] |} Buy)
  = [Sample.order 2 2 40 None; Sample.order 1 3 80 None].
Proof.
  apply (proj1 (second_call_same_plan Sample.getTokenByAssetData
                  Sample.tokenAmountInUnitsToBigNumber Sample.unitsInTokenAmount
                  Sample.toString Sample.heap
                  {| amount := 100%Q;
                     orders := [Sample.order 2 2 40 None; Sample.order 1 3 80 None] |} Buy)).
  repeat constructor. vm_compute. discriminate.
Defined.

Lemma fills_not_negative_witness :
  exists st,
    sampleAllocation SampleOrders.sellHalf Sell = Ok st /\
    Forall (fun r => (0 <= r)%Q) (recorded st) /\
    (Sell = Sell -> Forall (fun a => (0 <= a)%Q) [1%Q; 2%Q]).
Proof.
  apply (fills_not_negative Sample.getTokenByAssetData
           Sample.tokenAmountInUnitsToBigNumber Sample.unitsInTokenAmount Sample.toString
           Sample.heap SampleOrders.sellHalf Sell
           [Sample.order 1 3 1 None; Sample.order 2 2 4 None]
           [1%positive; 2%positive] [1%Q; 2%Q] true).
  - repeat constructor; vm_compute; discriminate.
  - vm_compute. reflexivity.
Defined.

Lemma sell_plan_covers_target_witness :
  (5 # 2 <= BigNumber.sum [1%Q; 2%Q])%Q /\
  (BigNumber.sum [1%Q; 2%Q]
   <= (5 # 2) + inject_Z (Z.of_nat (length [1%positive; 2%positive])))%Q.
Proof.
  apply (sell_plan_covers_target Sample.getTokenByAssetData
           Sample.tokenAmountInUnitsToBigNumber Sample.unitsInTokenAmount Sample.toString
           Sample.heap SampleOrders.sellHalf
           [Sample.order 1 3 1 None; Sample.order 2 2 4 None]
           [1%positive; 2%positive] [1%Q; 2%Q]).
  - vm_compute. discriminate.
  - vm_compute. reflexivity.
Defined.

Lemma valuator_total_witness :
  exists total,
    sumTakerAssetFillableOrders Sample.div Sample.heap Sell
      [1%positive; 2%positive] [1%Q; 2%Q] = Ok total /\
    (total == BigNumber.sum
                (considerations Sample.div Sample.heap Sell
                   [1%positive; 2%positive] [1%Q; 2%Q]))%Q.
Proof.
  apply (valuator_total Sample.div Sample.heap Sell [1%positive; 2%positive] [1%Q; 2%Q]).
  reflexivity.
Defined.

Lemma valuator_additive_witness :
  exists t1 t2 t,
    sumTakerAssetFillableOrders Sample.div Sample.heap Sell [1%positive] [1%Q] = Ok t1 /\
    sumTakerAssetFillableOrders Sample.div Sample.heap Sell [2%positive] [2%Q] = Ok t2 /\
    sumTakerAssetFillableOrders Sample.div Sample.heap Sell
      ([1%positive] ++ [2%positive]) ([1%Q] ++ [2%Q]) = Ok t /\
    (t == t1 + t2)%Q.
Proof.
  apply (valuator_additive Sample.div Sample.heap Sell [1%positive] [1%Q] [2%positive] [2%Q]);
    reflexivity.
Defined.

Lemma valuator_accepts_plan_witness :
  (forall side',
     returns (sumTakerAssetFillableOrders Sample.div Sample.heap side'
                [2%positive; 1%positive] [80%Q; 180%Q])) /\
  exists total,
    sumTakerAssetFillableOrders Sample.div Sample.heap Buy
      [2%positive; 1%positive] [80%Q; 180%Q] = Ok total /\
    (total == BigNumber.sum [80%Q; 180%Q])%Q.
Proof.
  apply (valuator_accepts_plan Sample.getTokenByAssetData
           Sample.tokenAmountInUnitsToBigNumber Sample.unitsInTokenAmount Sample.toString
           Sample.div Sample.heap Sample.buy100 Buy
           [Sample.order 2 2 40 None; Sample.order 1 3 80 None]
           [2%positive; 1%positive] [80%Q; 180%Q] true).
  vm_compute. reflexivity.
Defined.

Lemma protocol_fee_additive_witness :
  (calculateWorstCaseProtocolFee Sample.PROTOCOL_FEE_MULTIPLIER
     ([1%positive; 2%positive] ++ [3%positive]) (inject_Z (10 ^ 9))
   == calculateWorstCaseProtocolFee Sample.PROTOCOL_FEE_MULTIPLIER
        [1%positive; 2%positive] (inject_Z (10 ^ 9))
      + calculateWorstCaseProtocolFee Sample.PROTOCOL_FEE_MULTIPLIER
          [3%positive] (inject_Z (10 ^ 9)))%Q.
Proof.
  apply (proj2 (protocol_fee_additive Sample.PROTOCOL_FEE_MULTIPLIER
                  [1%positive; 2%positive] [3%positive] (inject_Z (10 ^ 9)))).
  - vm_compute. discriminate.
  - vm_compute. discriminate.
Defined.

Lemma protocol_fee_monotone_witness :
  (calculateWorstCaseProtocolFee Sample.PROTOCOL_FEE_MULTIPLIER
     [2%positive] (inject_Z (10 ^ 9))
   <= calculateWorstCaseProtocolFee Sample.PROTOCOL_FEE_MULTIPLIER
        [1%positive; 2%positive] (inject_Z (10 ^ 9)))%Q.
Proof.
  apply (protocol_fee_monotone Sample.PROTOCOL_FEE_MULTIPLIER
           [2%positive] [1%positive; 2%positive] (inject_Z (10 ^ 9))).
  - split; vm_compute; discriminate.
  - vm_compute. discriminate.
  - simpl. lia.
  - vm_compute. discriminate.
Defined.

Lemma relayer_answer_overrides_request_witness :
  exists order : Obj,
    sampleRelayerOrder
      (OrderConfigRequest "0xexchange" "erc20:usdc" "erc20:zrx" 1%Q 2%Q "0xabc"
         SampleOrders.ZERO_ADDRESS 0%Q) = Fulfilled order /\
    order !! "salt" = Some (VBigNumber (inject_Z SampleOrders.now)) /\
    order !! "chainId" = Some (VNumber SampleOrders.CHAIN_ID) /\
    forall key : string, key <> "salt" -> key <> "chainId" ->
      order !! key
      = match SampleOrders.answer !! key with
        | Some v => Some v
        | None =>
            OrderConfigRequest "0xexchange" "erc20:usdc" "erc20:zrx" 1%Q 2%Q "0xabc"
              SampleOrders.ZERO_ADDRESS 0%Q !! key
        end.
Proof.
  exact (relayer_answer_overrides_request SampleOrders.CHAIN_ID
           SampleOrders.getOrderConfigAsync SampleOrders.now
           (OrderConfigRequest "0xexchange" "erc20:usdc" "erc20:zrx" 1%Q 2%Q "0xabc"
              SampleOrders.ZERO_ADDRESS 0%Q)).
Defined.

Lemma limit_order_amounts_witness :
  exists baseToken quoteToken,
    SampleOrders.getTokenByAddress "zrx" = Some baseToken /\
    SampleOrders.getTokenByAddress "usdc" = Some quoteToken /\
    let exact :=
      Sample.unitsInTokenAmount
        (Sample.toString
           (Sample.tokenAmountInUnitsToBigNumber (inject_Z (5 * 10 ^ 18)) (decimals baseToken)
            * (1 # 3))%Q)
        (decimals quoteToken) in
    let rounded := inject_Z (Qfloor exact) in
    (rounded <= exact)%Q /\ (exact < rounded + 1)%Q /\
    SampleOrders.buyRequest !! "takerAssetAmount"
      = Some (VBigNumber (inject_Z (5 * 10 ^ 18))) /\
    SampleOrders.buyRequest !! "makerAssetAmount" = Some (VBigNumber rounded).
Proof.
  apply (limit_order_amounts SampleOrders.encodeERC20AssetData SampleOrders.getTokenByAddress
           Sample.tokenAmountInUnitsToBigNumber Sample.unitsInTokenAmount Sample.toString
           SampleOrders.ZERO_ADDRESS SampleOrders.expirationTime
           SampleOrders.limitParams Buy SampleOrders.buyRequest).
  reflexivity.
Defined.

Lemma limit_order_rejects_unknown_token_witness :
  sampleLimitOrder SampleOrders.unknownParams Sell = Rejected TokenNotFound.
Proof.
  apply (limit_order_rejects_unknown_token SampleOrders.encodeERC20AssetData
           SampleOrders.getTokenByAddress Sample.tokenAmountInUnitsToBigNumber
           Sample.unitsInTokenAmount Sample.toString SampleOrders.ZERO_ADDRESS
           SampleOrders.CHAIN_ID SampleOrders.getOrderConfigAsync SampleOrders.now
           SampleOrders.expirationTime SampleOrders.unknownParams Sell).
  - vm_compute. eauto.
  - vm_compute. eauto.
  - right. reflexivity.
Defined.

(** The relayer of the sample names the taker, and its chain id is not
    taken. *)
Example relayer_order_fields :
  exists order : Obj,
    sampleLimitOrder SampleOrders.limitParams Buy = Fulfilled order /\
    order !! "takerAddress" = Some (VString "0xfeed") /\
    order !! "makerAddress" = Some (VString "0xabc") /\
    order !! "chainId" = Some (VNumber 1) /\
    order !! "makerAssetAmount" = Some (VBigNumber 1666666%Q).
Proof. eexists. split; [reflexivity|]. repeat split; vm_compute; reflexivity. Qed.
